(** * ovirt_affinity_labels: assignment reconciliation of an affinity label

    Shallow embedding of
    [lib/ansible/modules/cloud/ovirt/ovirt_affinity_labels.py]:
    the class [AffinityLabelsModule] ([pre_remove],
    [_update_label_assignments], [update_check]) and [main].

    The oVirt engine is the environment.  Its read-only part (the VMs and
    the hosts it knows, and its answers to search queries) is a record the
    code consults; the part the module changes (which ids a label is
    assigned to, which labels exist) is state that is passed explicitly,
    together with the module's [changed] flag and the log of the mutating
    calls that were issued. *)

From Stdlib Require Import List String Bool Lia.
Import ListNotations.
Local Open Scope string_scope.
Local Open Scope list_scope.

(** ** The remote objects *)

(** The two values of the [name] argument of [_update_label_assignments]. *)
Inductive Kind : Type := vms | hosts.

(** [label_obj_type]: [otypes.Vm] or [otypes.Host]. *)
Inductive ObjType : Type := Vm | Host.

(** What [objs_service.service(id).get()] answers for a VM or a host: the
    fields the module reads.  [obj_cluster] is
    [follow_link(labeled_entity.cluster).name]. *)
Record Obj : Type := mkObj {
  obj_id : string;
  obj_name : string;
  obj_cluster : string
}.

(** [vms_service()] / [hosts_service()]: the objects the engine knows and
    its answer to [list(search=q)].  The query language belongs to the
    engine, so [svc_list] is a field and not a definition. *)
Record ObjsService : Type := mkObjsService {
  svc_objs : list Obj;
  svc_list : string -> list Obj
}.

(** [connection.system_service()], restricted to the two services that
    [_update_label_assignments] looks up by name. *)
Record SystemService : Type := mkSystemService {
  vms_service : ObjsService;
  hosts_service : ObjsService
}.

(** [getattr(self._connection.system_service(), '%s_service' % name)()] *)
Definition objs_service_of (sys : SystemService) (name : Kind) : ObjsService :=
  match name with
  | vms => vms_service sys
  | hosts => hosts_service sys
  end.

(** [objs_service.service(id).get()]; [None] stands for the SDK's
    not-found error. *)
Definition svc_get (s : ObjsService) (id : string) : option Obj :=
  find (fun o => obj_id o =? id) (svc_objs s).

(** The affinity label on the engine: [label_vms] and [label_hosts] are the
    ids behind the links [entity.vms] and [entity.hosts]. *)
Record AffinityLabel : Type := mkLabel {
  label_id : string;
  label_name : string;
  label_vms : list string;
  label_hosts : list string
}.

(** [self._connection.follow_link(getattr(entity, name))], as ids. *)
Definition label_objs (name : Kind) (l : AffinityLabel) : list string :=
  match name with
  | vms => label_vms l
  | hosts => label_hosts l
  end.

Definition set_label_objs (name : Kind) (ids : list string) (l : AffinityLabel)
  : AffinityLabel :=
  match name with
  | vms => mkLabel (label_id l) (label_name l) ids (label_hosts l)
  | hosts => mkLabel (label_id l) (label_name l) (label_vms l) ids
  end.

(** Python's [x in xs] on a list of strings. *)
Definition list_mem (x : string) (xs : list string) : bool :=
  existsb (String.eqb x) xs.

(** The engine keeps the assignments of a label as a set: assigning an id
    twice leaves one assignment, removing it leaves none. *)
Definition assignment_add (id : string) (ids : list string) : list string :=
  if list_mem id ids then ids else ids ++ [id].

Definition assignment_remove (id : string) (ids : list string) : list string :=
  filter (fun i => negb (i =? id)) ids.

(** ** The module's parameters *)

Inductive State : Type := present | absent.

(** [module.params]; [None] is Python's [None] (the key was not given). *)
Record Params : Type := mkParams {
  p_state : State;
  p_cluster : option string;
  p_name : string;
  p_vms : option (list string);
  p_hosts : option (list string)
}.

Record AnsibleModule : Type := mkModule {
  params : Params;
  check_mode : bool
}.

(** [self._module.params[name]] *)
Definition param_list (name : Kind) (p : Params) : option (list string) :=
  match name with
  | vms => p_vms p
  | hosts => p_hosts p
  end.

Definition set_param_list (name : Kind) (v : option (list string)) (p : Params)
  : Params :=
  match name with
  | vms => mkParams (p_state p) (p_cluster p) (p_name p) v (p_hosts p)
  | hosts => mkParams (p_state p) (p_cluster p) (p_name p) (p_vms p) v
  end.

(** ** Calls, exceptions and the state threaded through a run *)

(** The calls that change the engine. *)
Inductive Call : Type :=
| AssignmentAdd (name : Kind) (label : string) (ty : ObjType) (id : string)
    (* [label_service.add(vm=Vm(id=...))], [label_service.add(host=Host(id=...))] *)
| AssignmentRemove (name : Kind) (label : string) (id : string)
    (* [label_service.service(obj_id).remove()] *)
| LabelRemove (label : string).
    (* [entity_service.remove()] *)

Inductive Exn : Type :=
| NotFoundError (id : string)
| UnboundLocalError (var : string)
| OtherError (msg : string).

(** [st_label] is the label [entity] refers to, as the engine holds it;
    [st_changed] is [self.changed]; [st_calls] is the log of mutating calls,
    oldest first. *)
Record St : Type := mkSt {
  st_label : AffinityLabel;
  st_changed : bool;
  st_calls : list Call
}.

(** A method either returns or raises; the state reached so far stays. *)
Inductive Res (A : Type) : Type :=
| Ok (a : A) (s : St)
| Raise (e : Exn) (s : St).

Arguments Ok {A} a s.
Arguments Raise {A} e s.

Definition res_state {A} (r : Res A) : St :=
  match r with
  | Ok _ s => s
  | Raise _ s => s
  end.

Definition res_raised {A} (r : Res A) : option Exn :=
  match r with
  | Ok _ _ => None
  | Raise e _ => Some e
  end.

Definition bind {A B} (r : Res A) (f : A -> St -> Res B) : Res B :=
  match r with
  | Ok a s => f a s
  | Raise e s => Raise e s
  end.

Notation "r >>= f" := (bind r f) (at level 50, left associativity).

(** [self.changed = True] *)
Definition set_changed (st : St) : St :=
  mkSt (st_label st) true (st_calls st).

(** [label_service.add] with the keyword [name[:-1]] ([vm] or [host]) bound
    to [label_obj_type(id=obj_id.id)]. *)
Definition label_service_add (name : Kind) (ty : ObjType) (id : string) (st : St)
  : St :=
  mkSt (set_label_objs name (assignment_add id (label_objs name (st_label st)))
          (st_label st))
       (st_changed st)
       (st_calls st ++ [AssignmentAdd name (label_id (st_label st)) ty id]).

(** [label_service.service(obj_id).remove()] *)
Definition label_service_remove (name : Kind) (id : string) (st : St) : St :=
  mkSt (set_label_objs name (assignment_remove id (label_objs name (st_label st)))
          (st_label st))
       (st_changed st)
       (st_calls st ++ [AssignmentRemove name (label_id (st_label st)) id]).

(** ** [objs_names = defaultdict(list)] *)

(** Keys in the order of their first insertion, each with the ids appended
    to it.  The loop over [objs_names] visits the keys in this order; an
    interpreter that orders a dictionary otherwise issues the same remove
    calls in another order. *)
Definition NamesDict : Type := list (string * list string).

(** [objs_names[key].append(v)] *)
Fixpoint dd_append (key v : string) (d : NamesDict) : NamesDict :=
  match d with
  | [] => [(key, [v])]
  | (k, vs) :: rest =>
      if k =? key then (k, (vs ++ [v])%list) :: rest
      else (k, vs) :: dd_append key v rest
  end.

Definition dd_keys (d : NamesDict) : list string := map fst d.

(** [key in objs_names] *)
Definition dd_mem (key : string) (d : NamesDict) : bool :=
  list_mem key (dd_keys d).

(** ** [AffinityLabelsModule._update_label_assignments] *)

(** Python's [%s] of a parameter that may be [None]. *)
Definition py_str (v : option string) : string :=
  match v with
  | Some s => s
  | None => "None"
  end.

(** ['name=%s and cluster=%s' % (obj, self._module.params['cluster'])] *)
Definition search_query (obj : string) (cluster : option string) : string :=
  ("name=" ++ obj ++ " and cluster=" ++ py_str cluster)%string.

(** Lines 131-136: the loop that fills [objs_names]. *)
Fixpoint collect_objs_names (objs_service : ObjsService) (cluster : option string)
    (objs : list string) (objs_names : NamesDict) : Exn + NamesDict :=
  match objs with
  | [] => inr objs_names
  | id :: rest =>
      match svc_get objs_service id with
      | None => inl (NotFoundError id)
      | Some labeled_entity =>
          match cluster with
          | None =>
              collect_objs_names objs_service cluster rest
                (dd_append (obj_name labeled_entity) id objs_names)
          | Some c =>
              if obj_cluster labeled_entity =? c then
                collect_objs_names objs_service cluster rest
                  (dd_append (obj_name labeled_entity) id objs_names)
              else
                collect_objs_names objs_service cluster rest objs_names
          end
      end
  end.

(** Lines 140-148: the loop over the result of the search. *)
Fixpoint add_found (m : AnsibleModule) (name : Kind) (label_obj_type : ObjType)
    (found : list Obj) (st : St) : St :=
  match found with
  | [] => st
  | obj_id_ :: rest =>
      let st1 :=
        if check_mode m then st
        else label_service_add name label_obj_type (obj_id obj_id_) st in
      add_found m name label_obj_type rest (set_changed st1)
  end.

(** Lines 138-148: the loop over [self._module.params[name]]. *)
Fixpoint add_missing (objs_service : ObjsService) (m : AnsibleModule)
    (name : Kind) (label_obj_type : ObjType) (objs_names : NamesDict)
    (desired : list string) (st : St) : St :=
  match desired with
  | [] => st
  | obj :: rest =>
      let st1 :=
        if negb (dd_mem obj objs_names) then
          add_found m name label_obj_type
            (svc_list objs_service (search_query obj (p_cluster (params m)))) st
        else st in
      add_missing objs_service m name label_obj_type objs_names rest st1
  end.

(** Lines 154-155: the loop over [objs_names[obj]]. *)
Fixpoint remove_ids (name : Kind) (ids : list string) (st : St) : St :=
  match ids with
  | [] => st
  | obj_id_ :: rest => remove_ids name rest (label_service_remove name obj_id_ st)
  end.

(** Lines 150-156: the loop over [objs_names]. *)
Fixpoint remove_stale (m : AnsibleModule) (name : Kind) (desired : list string)
    (objs_names : NamesDict) (st : St) : St :=
  match objs_names with
  | [] => st
  | (obj, ids) :: rest =>
      let st1 :=
        if negb (list_mem obj desired) then
          set_changed (if check_mode m then st else remove_ids name ids st)
        else st in
      remove_stale m name desired rest st1
  end.

Definition _update_label_assignments (sys : SystemService) (m : AnsibleModule)
    (name : Kind) (label_obj_type : ObjType) (st : St) : Res unit :=
  let objs_service := objs_service_of sys name in
  match param_list name (params m) with
  | None => Ok tt st
  | Some desired =>
      let objs := label_objs name (st_label st) in
      match collect_objs_names objs_service (p_cluster (params m)) objs [] with
      | inl e => Raise e st
      | inr objs_names =>
          let st1 :=
            add_missing objs_service m name label_obj_type objs_names desired st in
          Ok tt (remove_stale m name desired objs_names st1)
      end
  end.

(** ** [update_check] and [pre_remove] *)

Definition update_check (sys : SystemService) (m : AnsibleModule) (st : St)
  : Res bool :=
  _update_label_assignments sys m vms Vm st >>= fun _ st1 =>
  _update_label_assignments sys m hosts Host st1 >>= fun _ st2 =>
  Ok true st2.

(** [post_create] runs the same check and drops its value. *)
Definition post_create (sys : SystemService) (m : AnsibleModule) (st : St)
  : Res unit :=
  update_check sys m st >>= fun _ st1 => Ok tt st1.

(** [pre_remove] overwrites the two list parameters of the module, so it
    returns the module it leaves behind together with the result. *)
Definition pre_remove (sys : SystemService) (m : AnsibleModule) (st : St)
  : AnsibleModule * Res bool :=
  let p := params m in
  let m' :=
    mkModule (mkParams (p_state p) (p_cluster p) (p_name p) (Some []) (Some []))
             (check_mode m) in
  (m', update_check sys m' st).

(** ** What a pass over one kind amounts to *)

Definition cluster_ok (cluster : option string) (o : Obj) : bool :=
  match cluster with
  | None => true
  | Some c => obj_cluster o =? c
  end.

Definition nonempty {A} (l : list A) : bool :=
  match l with
  | [] => false
  | _ :: _ => true
  end.

(** The objects the first loop asks to assign, in the order of the calls. *)
Definition to_add (objs_service : ObjsService) (cluster : option string)
    (objs_names : NamesDict) (desired : list string) : list Obj :=
  flat_map
    (fun obj =>
       if negb (dd_mem obj objs_names) then
         svc_list objs_service (search_query obj cluster)
       else [])
    desired.

(** The entries of [objs_names] whose name is not desired, and their ids. *)
Definition stale (desired : list string) (objs_names : NamesDict) : NamesDict :=
  filter (fun e => negb (list_mem (fst e) desired)) objs_names.

Definition to_remove (desired : list string) (objs_names : NamesDict)
  : list string :=
  flat_map snd (stale desired objs_names).

Definition apply_adds (ids : list string) (l : list string) : list string :=
  fold_left (fun acc i => assignment_add i acc) ids l.

Definition apply_removes (ids : list string) (l : list string) : list string :=
  fold_left (fun acc i => assignment_remove i acc) ids l.

Definition add_call (name : Kind) (label : string) (ty : ObjType) (o : Obj) : Call :=
  AssignmentAdd name label ty (obj_id o).

Definition remove_call (name : Kind) (label : string) (id : string) : Call :=
  AssignmentRemove name label id.

(** [dd_has d n i]: id [i] is listed under name [n]. *)
Definition dd_has (d : NamesDict) (n i : string) : Prop :=
  exists ids, In (n, ids) d /\ In i ids.

(** Every key of the dictionary has at least one id under it. *)
Definition dd_inhabited (d : NamesDict) : Prop :=
  forall n ids, In (n, ids) d -> ids <> [].

(** The engine knows [i] under the name [n], inside the cluster filter. *)
Definition in_scope (objs_service : ObjsService) (cluster : option string)
    (n i : string) : Prop :=
  exists o,
    svc_get objs_service i = Some o /\ obj_name o = n /\ cluster_ok cluster o = true.

(** The search for [d] answers with objects the engine knows under the name
    [d] and inside the cluster filter. *)
Definition exactb (objs_service : ObjsService) (cluster : option string)
    (d : string) : bool :=
  forallb
    (fun o =>
       match svc_get objs_service (obj_id o) with
       | Some o' => (obj_name o' =? d) && cluster_ok cluster o'
       | None => false
       end)
    (svc_list objs_service (search_query d cluster)).

(** [d] resolves: the search finds at least one such object. *)
Definition resolvesb (objs_service : ObjsService) (cluster : option string)
    (d : string) : bool :=
  nonempty (svc_list objs_service (search_query d cluster))
  && exactb objs_service cluster d.

(** The engine answers exactly for every name of the list given for [name]. *)
Definition search_exact (sys : SystemService) (m : AnsibleModule) (name : Kind)
  : bool :=
  match param_list name (params m) with
  | None => true
  | Some desired =>
      forallb (exactb (objs_service_of sys name) (p_cluster (params m))) desired
  end.

(** Nothing is left to do for [name]: the list is unset, or no current name
    is stale and the search finds nothing for a missing desired name. *)
Definition settled (sys : SystemService) (m : AnsibleModule) (name : Kind)
    (objs : list string) : Prop :=
  match param_list name (params m) with
  | None => True
  | Some desired =>
      exists objs_names,
        collect_objs_names (objs_service_of sys name) (p_cluster (params m))
          objs [] = inr objs_names
        /\ stale desired objs_names = []
        /\ to_add (objs_service_of sys name) (p_cluster (params m))
             objs_names desired = []
  end.

(** The calls [pre_remove] issues outside check mode, for the dictionaries
    of the two kinds. *)
Definition clearing_calls (label : string) (vm_names host_names : NamesDict)
  : list Call :=
  map (remove_call vms label) (flat_map snd vm_names)
  ++ map (remove_call hosts label) (flat_map snd host_names).

(** ** The framework around the class *)

(** The engine behind a connection: the services the module reads and the
    affinity labels it holds. *)
Record Engine : Type := mkEngine {
  eng_sys : SystemService;
  eng_labels : list AffinityLabel
}.

(** What a run of [main] finds outside the module: whether [ovirtsdk4] can
    be imported, and what [create_connection] does (it returns a connection
    or raises). *)
Record World : Type := mkWorld {
  sdk_installed : bool;
  create_connection : Exn + Engine
}.

(** The dictionary [create] and [remove] return. *)
Record Ret : Type := mkRet {
  ret_changed : bool;
  ret_id : option string
}.

(** A run of [create()] or [remove()]: the mutating calls it issued, the
    labels the engine holds afterwards, and the value returned or the
    exception raised. *)
Record BodyRun : Type := mkBodyRun {
  body_calls : list Call;
  body_labels : list AffinityLabel;
  body_ret : Exn + Ret
}.

Definition Method : Type := AnsibleModule -> Engine -> BodyRun.

Inductive Event : Type :=
| ECreateConnection          (* [create_connection(...)] is called *)
| ERemote (c : Call)
| EClose.                    (* [connection.close(logout=False)] *)

(** What the module prints before it exits. *)
Inductive Report : Type :=
| ExitJson (ret : Ret)       (* [module.exit_json( **ret)] *)
| FailJson (msg : Exn).      (* [module.fail_json(msg=str(e), ...)] *)

(** [run_uncaught] is the exception that leaves [main], if one does;
    [run_labels] is [None] when no connection was ever made. *)
Record Run : Type := mkRun {
  run_events : list Event;
  run_report : Report;
  run_uncaught : option Exn;
  run_labels : option (list AffinityLabel)
}.

(** Modelled from the spec: the [required_if] check of [AnsibleModule]
    (module_utils/basic.py is not among the sources), for the table
    [[('state', 'present', ['cluster'])]] that [main] passes: "cluster:
    required if state=present", "invalid invocation combination
    (state=present without cluster) -- rejected before remote calls begin". *)
Definition required_if_ok (p : Params) : bool :=
  match p_state p, p_cluster p with
  | present, None => false
  | _, _ => true
  end.

(** Modelled from the spec: [search_entity] of [BaseModule]
    (module_utils/ovirt.py is not among the sources): "look up label by
    name". *)
Definition search_entity (name : string) (labels : list AffinityLabel)
  : option AffinityLabel :=
  find (fun l => label_name l =? name) labels.

Definition store_put (l : AffinityLabel) (labels : list AffinityLabel)
  : list AffinityLabel :=
  map (fun x => if label_id x =? label_id l then l else x) labels.

Definition store_remove (id : string) (labels : list AffinityLabel)
  : list AffinityLabel :=
  filter (fun x => negb (label_id x =? id)) labels.

(** [entity_service.remove()] *)
Definition entity_service_remove (st : St) : St :=
  mkSt (st_label st) (st_changed st)
       (st_calls st ++ [LabelRemove (label_id (st_label st))]).

(** Modelled from the spec: [remove] of [BaseModule] (module_utils/ovirt.py
    is not among the sources): "if label exists, first clear all VM and Host
    assignments (treat desired lists as empty), then delete the label.
    Returns changed flag", "changed=true if it previously existed, false if
    it did not", "All mutating calls are skipped under a dry-run mode, but
    the changed flag is still set".  The clearing is [pre_remove], which is
    in the source. *)
Definition BaseModule_remove : Method := fun m eng =>
  match search_entity (p_name (params m)) (eng_labels eng) with
  | None => mkBodyRun [] (eng_labels eng) (inr (mkRet false None))
  | Some entity =>
      match pre_remove (eng_sys eng) m (mkSt entity false []) with
      | (_, Raise e st) =>
          mkBodyRun (st_calls st) (store_put (st_label st) (eng_labels eng))
                    (inl e)
      | (m', Ok _ st) =>
          if check_mode m' then
            mkBodyRun (st_calls st) (eng_labels eng)
                      (inr (mkRet true (Some (label_id entity))))
          else
            mkBodyRun (st_calls (entity_service_remove st))
                      (store_remove (label_id entity) (eng_labels eng))
                      (inr (mkRet true (Some (label_id entity))))
      end
  end.

(** ** [main] *)

(** The texts of the framework's two rejections stand for whatever it
    prints. *)
Definition msg_required_if : string :=
  "state is present but the following are missing: cluster".

Definition msg_check_sdk : string := "ovirtsdk4 is required for this module".

Section Main.

(** [create] and [remove] are inherited from [BaseModule]; [main] is
    written against whatever they do. *)
Variables create remove : Method.

(** The body of the [try] block.  The second component is the local
    variable [connection] when the block is left: [None] while it is
    unbound. *)
Definition try_block (w : World) (module : AnsibleModule)
  : list Event * option Engine * (Exn + Ret) * option (list AffinityLabel) :=
  match create_connection w with
  | inl e => ([ECreateConnection], None, inl e, None)
  | inr connection =>
      let b :=
        match p_state (params module) with
        | present => create module connection
        | absent => remove module connection
        end in
      (ECreateConnection :: map ERemote (body_calls b),
       Some connection, body_ret b, Some (body_labels b))
  end.

(** The [finally] block: [connection.close(logout=False)]. *)
Definition finally_block (connection : option Engine)
  : list Event * option Exn :=
  match connection with
  | Some _ => ([EClose], None)
  | None => ([], Some (UnboundLocalError "connection"))
  end.

(** [AnsibleModule(...)] applies [required_if] and [check_sdk] looks for
    the SDK; either one ends the run with [fail_json] before the [try]
    statement is reached.  [exit_json] and [fail_json] print and raise
    [SystemExit], which the [except Exception] clause does not catch; an
    exception raised in the [finally] block replaces it. *)
Definition main (w : World) (p : Params) (check : bool) : Run :=
  let module := mkModule p check in
  if negb (required_if_ok p) then
    mkRun [] (FailJson (OtherError msg_required_if)) None None
  else if negb (sdk_installed w) then
    mkRun [] (FailJson (OtherError msg_check_sdk)) None None
  else
    let '(evs, connection, r, labels) := try_block w module in
    let report :=
      match r with
      | inr ret => ExitJson ret
      | inl e => FailJson e
      end in
    let '(evs', exn) := finally_block connection in
    mkRun (evs ++ evs') report exn labels.

End Main.

(** ** A small engine to run the module against *)

(** An engine that answers a search with the objects whose own name and
    cluster give exactly the query. *)
Definition exact_service (objs : list Obj) : ObjsService :=
  mkObjsService objs
    (fun q =>
       filter (fun o => q =? search_query (obj_name o) (Some (obj_cluster o)))
              objs).

Definition demo_vms : list Obj :=
  [ mkObj "id1" "vm1" "mycluster";
    mkObj "id2" "vm2" "mycluster";
    mkObj "id3" "vm3" "mycluster";
    mkObj "id4" "vm4" "othercluster";
    mkObj "id5" "vm1" "mycluster" ].

Definition demo_hosts : list Obj :=
  [ mkObj "h1" "host1" "mycluster";
    mkObj "h2" "host2" "othercluster" ].

Definition demo_sys : SystemService :=
  mkSystemService (exact_service demo_vms) (exact_service demo_hosts).

Definition demo_label (vs hs : list string) : AffinityLabel :=
  mkLabel "L" "mylabel" vs hs.

Definition demo_module (cluster : option string) (vs hs : option (list string))
    (check : bool) : AnsibleModule :=
  mkModule (mkParams present cluster "mylabel" vs hs) check.

Definition start (l : AffinityLabel) : St := mkSt l false [].

(** The engine of the worked example: three VMs of one cluster. *)
Definition example_sys : SystemService :=
  mkSystemService
    (exact_service
       [ mkObj "id1" "vm1" "mycluster";
         mkObj "id2" "vm2" "mycluster";
         mkObj "id3" "vm3" "mycluster" ])
    (exact_service []).

Definition demo_engine : Engine :=
  mkEngine demo_sys [demo_label ["id2"; "id4"] ["h1"; "h2"]].

Definition demo_world : World := mkWorld true (inr demo_engine).

(** A run with [state=absent] does not reach [create]; the runs below are
    given one that raises. *)
Definition demo_create : Method := fun _ eng =>
  mkBodyRun [] (eng_labels eng) (inl (OtherError "create")).

(** An engine whose search language has wildcards: it knows one VM, [vm1],
    and answers the query for the name [vm*] with it. *)
Definition pattern_service : ObjsService :=
  mkObjsService
    [mkObj "id1" "vm1" "mycluster"]
    (fun q =>
       if q =? search_query "vm*" (Some "mycluster")
       then [mkObj "id1" "vm1" "mycluster"]
       else []).

Definition pattern_sys : SystemService :=
  mkSystemService pattern_service (exact_service []).

(** ** Reading the log of calls *)

(** The kind a call is about; removing the label itself is about neither. *)
Definition call_kind (c : Call) : option Kind :=
  match c with
  | AssignmentAdd name _ _ _ => Some name
  | AssignmentRemove name _ _ => Some name
  | LabelRemove _ => None
  end.

Definition other_kind (name : Kind) : Kind :=
  match name with
  | vms => hosts
  | hosts => vms
  end.

(** * Properties *)

(** ** Records and the assignment set *)

Lemma label_objs_set name x l : label_objs name (set_label_objs name x l) = x.
Proof. destruct name; reflexivity. Qed.

Lemma set_label_objs_twice name x y l :
  set_label_objs name y (set_label_objs name x l) = set_label_objs name y l.
Proof. destruct name; reflexivity. Qed.

Lemma set_label_objs_same name l : set_label_objs name (label_objs name l) l = l.
Proof. destruct name, l; reflexivity. Qed.

Lemma label_id_set name x l : label_id (set_label_objs name x l) = label_id l.
Proof. destruct name; reflexivity. Qed.

Lemma label_objs_set_other name name' x l :
  name <> name' -> label_objs name' (set_label_objs name x l) = label_objs name' l.
Proof. destruct name, name'; intros H; try reflexivity; contradiction. Qed.

Lemma list_mem_In x xs : list_mem x xs = true <-> In x xs.
Proof.
  unfold list_mem. rewrite existsb_exists. split.
  - intros [y [Hy Heq]]. apply String.eqb_eq in Heq. now subst.
  - intros H. exists x. split; [assumption | apply String.eqb_refl].
Qed.

Lemma list_mem_false x xs : list_mem x xs = false <-> ~ In x xs.
Proof.
  rewrite <- list_mem_In. destruct (list_mem x xs); split; intros; congruence.
Qed.

Lemma assignment_add_In i j l : In i (assignment_add j l) <-> In i l \/ i = j.
Proof.
  unfold assignment_add. destruct (list_mem j l) eqn:E.
  - apply list_mem_In in E. split; [auto | intros [H | ->]; assumption].
  - rewrite in_app_iff. simpl. intuition.
Qed.

Lemma assignment_remove_In i j l :
  In i (assignment_remove j l) <-> In i l /\ i <> j.
Proof.
  unfold assignment_remove. rewrite filter_In.
  destruct (String.eqb_spec i j); simpl; intuition congruence.
Qed.

Lemma apply_adds_In ids : forall l i, In i (apply_adds ids l) <-> In i l \/ In i ids.
Proof.
  induction ids as [| j ids IH]; intros l i; simpl.
  - intuition.
  - unfold apply_adds in *. simpl. rewrite IH, assignment_add_In. intuition.
Qed.

Lemma apply_removes_In ids :
  forall l i, In i (apply_removes ids l) <-> In i l /\ ~ In i ids.
Proof.
  induction ids as [| j ids IH]; intros l i; simpl.
  - intuition.
  - unfold apply_removes in *. simpl. rewrite IH, assignment_remove_In.
    intuition.
Qed.

Lemma apply_adds_app a b l : apply_adds (a ++ b) l = apply_adds b (apply_adds a l).
Proof. unfold apply_adds. apply fold_left_app. Qed.

Lemma apply_removes_app a b l :
  apply_removes (a ++ b) l = apply_removes b (apply_removes a l).
Proof. unfold apply_removes. apply fold_left_app. Qed.

Lemma nonempty_app {A} (a b : list A) : nonempty (a ++ b) = nonempty a || nonempty b.
Proof. destruct a; reflexivity. Qed.

(** ** The worked example *)

(** Label "mylabel", cluster "mycluster", desired VMs vm1 and vm2, assigned
    VMs vm2 and vm3: vm1 is added, vm3 is removed, and [changed] is set. *)
Example sync_example :
  _update_label_assignments example_sys
    (demo_module (Some "mycluster") (Some ["vm1"; "vm2"]) None false) vms Vm
    (start (demo_label ["id2"; "id3"] []))
  = Ok tt
      (mkSt (demo_label ["id2"; "id1"] []) true
         [AssignmentAdd vms "L" Vm "id1"; AssignmentRemove vms "L" "id3"]).
Proof. reflexivity. Qed.

(** The same pass in check mode: nothing is called, [changed] is set. *)
Example sync_example_check_mode :
  _update_label_assignments example_sys
    (demo_module (Some "mycluster") (Some ["vm1"; "vm2"]) None true) vms Vm
    (start (demo_label ["id2"; "id3"] []))
  = Ok tt (mkSt (demo_label ["id2"; "id3"] []) true []).
Proof. reflexivity. Qed.

(** An assigned id the engine does not know makes the pass raise. *)
Example sync_example_not_found :
  _update_label_assignments example_sys
    (demo_module (Some "mycluster") (Some ["vm1"]) None false) vms Vm
    (start (demo_label ["id2"; "id9"] []))
  = Raise (NotFoundError "id9") (start (demo_label ["id2"; "id9"] [])).
Proof. reflexivity. Qed.

(** ** The loops in closed form *)

Ltac st_eq :=
  repeat rewrite ?label_objs_set, ?set_label_objs_twice, ?set_label_objs_same,
    ?label_id_set, ?orb_true_r, ?orb_false_r, ?app_nil_r, <- ?app_assoc;
  simpl; try reflexivity.

Lemma add_found_dry m name ty found :
  check_mode m = true ->
  forall st,
    add_found m name ty found st =
    mkSt (st_label st) (st_changed st || nonempty found) (st_calls st).
Proof.
  intros Hc. induction found as [| o rest IH]; intros st; simpl.
  - destruct st; simpl. now rewrite orb_false_r.
  - rewrite Hc, IH. simpl. now rewrite orb_true_r.
Qed.

Lemma add_found_real m name ty found :
  check_mode m = false ->
  forall st,
    add_found m name ty found st =
    mkSt (set_label_objs name
            (apply_adds (map obj_id found) (label_objs name (st_label st)))
            (st_label st))
         (st_changed st || nonempty found)
         (st_calls st ++ map (add_call name (label_id (st_label st)) ty) found).
Proof.
  intros Hc. induction found as [| o rest IH]; intros st; simpl.
  - destruct st; simpl. unfold apply_adds; simpl. st_eq.
  - rewrite Hc, IH. unfold apply_adds. simpl. st_eq.
Qed.

Lemma add_missing_dry objs_service m name ty objs_names desired :
  check_mode m = true ->
  forall st,
    add_missing objs_service m name ty objs_names desired st =
    mkSt (st_label st)
         (st_changed st
          || nonempty (to_add objs_service (p_cluster (params m)) objs_names desired))
         (st_calls st).
Proof.
  intros Hc. induction desired as [| d rest IH]; intros st; simpl.
  - destruct st; simpl. now rewrite orb_false_r.
  - rewrite IH. unfold to_add in *. simpl. rewrite nonempty_app.
    destruct (negb (dd_mem d objs_names)); simpl.
    + rewrite add_found_dry by assumption. simpl. now rewrite orb_assoc.
    + reflexivity.
Qed.

Lemma add_missing_real objs_service m name ty objs_names desired :
  check_mode m = false ->
  forall st,
    add_missing objs_service m name ty objs_names desired st =
    let found := to_add objs_service (p_cluster (params m)) objs_names desired in
    mkSt (set_label_objs name
            (apply_adds (map obj_id found) (label_objs name (st_label st)))
            (st_label st))
         (st_changed st || nonempty found)
         (st_calls st ++ map (add_call name (label_id (st_label st)) ty) found).
Proof.
  intros Hc. induction desired as [| d rest IH]; intros st; simpl.
  - destruct st; simpl. unfold apply_adds; simpl. st_eq.
  - rewrite IH. unfold to_add in *. simpl.
    rewrite nonempty_app, !map_app, apply_adds_app.
    destruct (negb (dd_mem d objs_names)); simpl.
    + rewrite add_found_real by assumption. simpl. st_eq.
      now rewrite orb_assoc.
    + reflexivity.
Qed.

Lemma remove_ids_eq name ids :
  forall st,
    remove_ids name ids st =
    mkSt (set_label_objs name
            (apply_removes ids (label_objs name (st_label st))) (st_label st))
         (st_changed st)
         (st_calls st ++ map (remove_call name (label_id (st_label st))) ids).
Proof.
  induction ids as [| i rest IH]; intros st; simpl.
  - destruct st; simpl. unfold apply_removes; simpl. st_eq.
  - rewrite IH. unfold apply_removes. simpl. st_eq.
Qed.

Lemma remove_stale_dry m name desired objs_names :
  check_mode m = true ->
  forall st,
    remove_stale m name desired objs_names st =
    mkSt (st_label st)
         (st_changed st || nonempty (stale desired objs_names))
         (st_calls st).
Proof.
  intros Hc. induction objs_names as [| [n ids] rest IH]; intros st; simpl.
  - destruct st; simpl. now rewrite orb_false_r.
  - rewrite IH, Hc. unfold stale in *. simpl.
    destruct (negb (list_mem n desired)); simpl.
    + now rewrite orb_true_r.
    + reflexivity.
Qed.

Lemma remove_stale_real m name desired objs_names :
  check_mode m = false ->
  forall st,
    remove_stale m name desired objs_names st =
    mkSt (set_label_objs name
            (apply_removes (to_remove desired objs_names)
               (label_objs name (st_label st)))
            (st_label st))
         (st_changed st || nonempty (stale desired objs_names))
         (st_calls st
          ++ map (remove_call name (label_id (st_label st)))
               (to_remove desired objs_names)).
Proof.
  intros Hc. induction objs_names as [| [n ids] rest IH]; intros st; simpl.
  - destruct st; simpl. unfold apply_removes; simpl. st_eq.
  - rewrite IH, Hc. unfold to_remove, stale in *. simpl.
    destruct (negb (list_mem n desired)); simpl.
    + rewrite remove_ids_eq. simpl. rewrite map_app, apply_removes_app. st_eq.
    + reflexivity.
Qed.

Lemma update_dry sys m name ty st desired objs_names :
  check_mode m = true ->
  param_list name (params m) = Some desired ->
  collect_objs_names (objs_service_of sys name) (p_cluster (params m))
    (label_objs name (st_label st)) [] = inr objs_names ->
  _update_label_assignments sys m name ty st =
  Ok tt (mkSt (st_label st)
           (st_changed st
            || nonempty (to_add (objs_service_of sys name) (p_cluster (params m))
                           objs_names desired)
            || nonempty (stale desired objs_names))
           (st_calls st)).
Proof.
  intros Hc Hp Hn. unfold _update_label_assignments. rewrite Hp, Hn.
  rewrite add_missing_dry, remove_stale_dry by assumption. reflexivity.
Qed.

Lemma update_real sys m name ty st desired objs_names :
  check_mode m = false ->
  param_list name (params m) = Some desired ->
  collect_objs_names (objs_service_of sys name) (p_cluster (params m))
    (label_objs name (st_label st)) [] = inr objs_names ->
  _update_label_assignments sys m name ty st =
  let found :=
    to_add (objs_service_of sys name) (p_cluster (params m)) objs_names desired in
  let gone := to_remove desired objs_names in
  Ok tt (mkSt (set_label_objs name
                 (apply_removes gone
                    (apply_adds (map obj_id found)
                       (label_objs name (st_label st))))
                 (st_label st))
           (st_changed st || nonempty found || nonempty (stale desired objs_names))
           (st_calls st
            ++ map (add_call name (label_id (st_label st)) ty) found
            ++ map (remove_call name (label_id (st_label st))) gone)).
Proof.
  intros Hc Hp Hn. unfold _update_label_assignments. rewrite Hp, Hn.
  rewrite add_missing_real, remove_stale_real by assumption. simpl. st_eq.
Qed.

Lemma update_raises sys m name ty st desired e :
  param_list name (params m) = Some desired ->
  collect_objs_names (objs_service_of sys name) (p_cluster (params m))
    (label_objs name (st_label st)) [] = inl e ->
  _update_label_assignments sys m name ty st = Raise e st.
Proof.
  intros Hp Hn. unfold _update_label_assignments. now rewrite Hp, Hn.
Qed.

(** ** The dictionary of names *)

Lemma collect_step objs_service cluster id rest acc :
  collect_objs_names objs_service cluster (id :: rest) acc =
  match svc_get objs_service id with
  | None => inl (NotFoundError id)
  | Some o =>
      collect_objs_names objs_service cluster rest
        (if cluster_ok cluster o then dd_append (obj_name o) id acc else acc)
  end.
Proof.
  simpl. destruct (svc_get objs_service id) as [o |]; [| reflexivity].
  destruct cluster as [c |]; simpl; [| reflexivity].
  destruct (obj_cluster o =? c); reflexivity.
Qed.

Lemma dd_append_has key v d n i :
  dd_has (dd_append key v d) n i <-> dd_has d n i \/ (n = key /\ i = v).
Proof.
  unfold dd_has. induction d as [| [k vs] rest IH]; simpl.
  - split.
    + intros [ids [[H | []] Hi]]. inversion H; subst.
      destruct Hi as [-> | []]. auto.
    + intros [[ids [[] _]] | [-> ->]]. exists [v]. simpl. auto.
  - destruct (String.eqb_spec k key) as [-> | Hne]; simpl.
    + split.
      * intros [ids [[H | H] Hi]].
        -- inversion H; subst. apply in_app_iff in Hi.
           destruct Hi as [Hi | [-> | []]]; [left | right; auto].
           exists vs. auto.
        -- left. exists ids. auto.
      * intros [[ids [[H | H] Hi]] | [-> ->]].
        -- inversion H; subst. exists (ids ++ [v])%list. split; [auto |].
           apply in_app_iff. auto.
        -- exists ids. auto.
        -- exists (vs ++ [v])%list. split; [auto |].
           apply in_app_iff. simpl. auto.
    + split.
      * intros [ids [[H | H] Hi]].
        -- left. exists ids. auto.
        -- destruct IH as [IH1 _].
           destruct IH1 as [[ids' [H1 H2]] | H1]; [exists ids; auto | | auto].
           left. exists ids'. auto.
      * intros [[ids [[H | H] Hi]] | H].
        -- exists ids. auto.
        -- destruct IH as [_ IH2].
           destruct IH2 as [ids' [H1 H2]]; [left; exists ids; auto |].
           exists ids'. auto.
        -- destruct IH as [_ IH2].
           destruct IH2 as [ids' [H1 H2]]; [auto |]. exists ids'. auto.
Qed.

Lemma dd_append_keys key v d n :
  In n (dd_keys (dd_append key v d)) <-> In n (dd_keys d) \/ n = key.
Proof.
  unfold dd_keys. induction d as [| [k vs] rest IH]; simpl.
  - intuition.
  - destruct (String.eqb_spec k key) as [-> | Hne]; simpl.
    + intuition.
    + rewrite IH. intuition.
Qed.

Lemma dd_append_inhabited key v d :
  dd_inhabited d -> dd_inhabited (dd_append key v d).
Proof.
  unfold dd_inhabited. induction d as [| [k vs] rest IH]; simpl; intros Hd n ids.
  - intros [H | []]. inversion H; subst. discriminate.
  - destruct (String.eqb_spec k key) as [-> | Hne]; simpl.
    + intros [H | H].
      * inversion H; subst. destruct vs; discriminate.
      * eapply Hd. right. eassumption.
    + intros [H | H].
      * eapply Hd. left. eassumption.
      * eapply IH; [| eassumption]. intros n' ids' H'. eapply Hd. right.
        eassumption.
Qed.

Lemma dd_append_NoDup key v d :
  NoDup (dd_keys d) -> NoDup (dd_keys (dd_append key v d)).
Proof.
  unfold dd_keys. induction d as [| [k vs] rest IH]; simpl; intros Hd.
  - constructor; [intros [] | constructor].
  - inversion Hd as [| ? ? Hnin Hrest]; subst.
    destruct (String.eqb_spec k key) as [-> | Hne]; simpl.
    + constructor; assumption.
    + constructor; [| auto].
      intros Hin. apply (dd_append_keys key v rest k) in Hin.
      destruct Hin as [Hin | Heq]; [contradiction | congruence].
Qed.

Lemma dd_keys_has d n :
  dd_inhabited d -> (In n (dd_keys d) <-> exists i, dd_has d n i).
Proof.
  intros Hd. unfold dd_keys, dd_has. rewrite in_map_iff. split.
  - intros [[n' ids] [Heq Hin]]. simpl in Heq. subst n'.
    destruct ids as [| i ids'] eqn:E.
    + exfalso. eapply Hd; [eassumption | reflexivity].
    + exists i, (i :: ids'). simpl. auto.
  - intros [i [ids [Hin _]]]. exists (n, ids). auto.
Qed.

Lemma dd_mem_In n d : dd_mem n d = true <-> In n (dd_keys d).
Proof. apply list_mem_In. Qed.

Section Collect.

Variable objs_service : ObjsService.
Variable cluster : option string.

Local Abbreviation collect := (collect_objs_names objs_service cluster).

Lemma collect_has ids :
  forall acc d,
    collect ids acc = inr d ->
    forall n i,
      dd_has d n i <->
      dd_has acc n i \/ (In i ids /\ in_scope objs_service cluster n i).
Proof.
  induction ids as [| id rest IH]; intros acc d H n i.
  - simpl in H. inversion H; subst. simpl. intuition.
  - rewrite collect_step in H.
    destruct (svc_get objs_service id) as [o |] eqn:Hget; [| discriminate].
    apply IH with (n := n) (i := i) in H. rewrite H. clear H IH.
    unfold in_scope. simpl.
    destruct (cluster_ok cluster o) eqn:Hok.
    + rewrite dd_append_has. split.
      * intros [[H | [-> ->]] | [Hin Hs]]; auto.
        right. split; [auto |]. exists o. auto.
      * intros [H | [[Heq | Hin] [o' [Hg [Hn Hc]]]]]; auto.
        -- subst id. rewrite Hget in Hg. inversion Hg; subst. left. right. auto.
        -- right. split; [auto |]. exists o'. auto.
    + split.
      * intros [H | [Hin Hs]]; auto.
      * intros [H | [[Heq | Hin] [o' [Hg [Hn Hc]]]]]; auto.
        -- subst id. rewrite Hget in Hg. inversion Hg; subst. congruence.
        -- right. split; [auto |]. exists o'. auto.
Qed.

Lemma collect_inhabited ids :
  forall acc d, dd_inhabited acc -> collect ids acc = inr d -> dd_inhabited d.
Proof.
  induction ids as [| id rest IH]; intros acc d Hacc H.
  - simpl in H. inversion H; subst. assumption.
  - rewrite collect_step in H.
    destruct (svc_get objs_service id) as [o |]; [| discriminate].
    eapply IH; [| eassumption].
    destruct (cluster_ok cluster o); [apply dd_append_inhabited |]; assumption.
Qed.

Lemma collect_NoDup ids :
  forall acc d,
    NoDup (dd_keys acc) -> collect ids acc = inr d -> NoDup (dd_keys d).
Proof.
  induction ids as [| id rest IH]; intros acc d Hacc H.
  - simpl in H. inversion H; subst. assumption.
  - rewrite collect_step in H.
    destruct (svc_get objs_service id) as [o |]; [| discriminate].
    eapply IH; [| eassumption].
    destruct (cluster_ok cluster o); [apply dd_append_NoDup |]; assumption.
Qed.

Lemma collect_known ids :
  forall acc d,
    collect ids acc = inr d ->
    forall i, In i ids -> svc_get objs_service i <> None.
Proof.
  induction ids as [| id rest IH]; intros acc d H i Hin.
  - destruct Hin.
  - rewrite collect_step in H.
    destruct (svc_get objs_service id) as [o |] eqn:Hget; [| discriminate].
    destruct Hin as [-> | Hin]; [congruence |]. eapply IH; eassumption.
Qed.

Lemma collect_total ids :
  (forall i, In i ids -> svc_get objs_service i <> None) ->
  forall acc, exists d, collect ids acc = inr d.
Proof.
  induction ids as [| id rest IH]; intros Hk acc.
  - exists acc. reflexivity.
  - rewrite collect_step.
    destruct (svc_get objs_service id) as [o |] eqn:Hget.
    + apply IH. intros i Hi. apply Hk. now right.
    + exfalso. apply (Hk id); [now left | assumption].
Qed.

Lemma collect_keys ids d :
  collect ids [] = inr d ->
  forall n,
    In n (dd_keys d) <-> exists i, In i ids /\ in_scope objs_service cluster n i.
Proof.
  intros H n.
  assert (Hinh : dd_inhabited d).
  { eapply collect_inhabited; [| exact H]. intros ? ? []. }
  rewrite (dd_keys_has d n Hinh). split.
  - intros [i Hi]. apply (collect_has ids [] d H) in Hi.
    destruct Hi as [[ids' [[] _]] | Hi]. exists i. assumption.
  - intros [i Hi]. exists i. apply (collect_has ids [] d H). right. assumption.
Qed.

(** Dropping ids the filter rejects does not change the dictionary. *)
Lemma collect_filter ids :
  forall acc (keep : string -> bool),
    (forall i o,
        In i ids -> keep i = false ->
        svc_get objs_service i = Some o -> cluster_ok cluster o = false) ->
    (forall i, In i ids -> keep i = false -> svc_get objs_service i <> None) ->
    collect (filter keep ids) acc = collect ids acc.
Proof.
  induction ids as [| id rest IH]; intros acc keep Hout Hk; [reflexivity |].
  simpl filter. destruct (keep id) eqn:Hkeep.
  - rewrite !collect_step.
    destruct (svc_get objs_service id); [| reflexivity].
    apply IH; intros; [eapply Hout | eapply Hk]; simpl; eauto.
  - rewrite collect_step.
    destruct (svc_get objs_service id) as [o |] eqn:Hget.
    + rewrite (Hout id o); simpl; auto.
      apply IH; intros; [eapply Hout | eapply Hk]; simpl; eauto.
    + exfalso. apply (Hk id); simpl; auto.
Qed.

End Collect.

(** ** Check mode against a real pass *)

(** One kind: a dry pass and a real pass that start from the same
    assignments of that kind and the same flag raise alike and end with the
    same flag; the dry pass leaves the label and the log as they were, the
    real pass leaves the other kind alone. *)
Lemma sync_modes sys p name ty st_d st_r :
  label_objs name (st_label st_d) = label_objs name (st_label st_r) ->
  st_changed st_d = st_changed st_r ->
  let d := _update_label_assignments sys (mkModule p true) name ty st_d in
  let r := _update_label_assignments sys (mkModule p false) name ty st_r in
  st_label (res_state d) = st_label st_d
  /\ st_calls (res_state d) = st_calls st_d
  /\ st_changed (res_state d) = st_changed (res_state r)
  /\ res_raised d = res_raised r
  /\ (forall name', name <> name' ->
        label_objs name' (st_label (res_state r)) = label_objs name' (st_label st_r)).
Proof.
  intros Hobjs Hch d r. subst d r.
  destruct (param_list name p) as [desired |] eqn:Hp.
  - destruct (collect_objs_names (objs_service_of sys name) (p_cluster p)
                (label_objs name (st_label st_r)) []) as [e | names] eqn:Hn.
    + rewrite (update_raises sys (mkModule p true) name ty st_d desired e);
        [| assumption | simpl; now rewrite Hobjs].
      rewrite (update_raises sys (mkModule p false) name ty st_r desired e)
        by assumption.
      simpl. repeat split; auto.
    + rewrite (update_dry sys (mkModule p true) name ty st_d desired names);
        [| reflexivity | assumption | simpl; now rewrite Hobjs].
      rewrite (update_real sys (mkModule p false) name ty st_r desired names)
        by (reflexivity || assumption).
      simpl. rewrite Hch. repeat split; auto.
      intros name' Hne. now apply label_objs_set_other.
  - unfold _update_label_assignments. simpl. rewrite Hp. simpl.
    repeat split; auto.
Qed.

(** C3.  In check mode [update_check] issues no mutating call (the log of
    calls and the label are as before the pass), and it ends with the same
    [changed] flag, and raises or not, exactly as the same pass does without
    check mode from the same state. *)
Theorem check_mode_reports_real_changed sys p st :
  let dry := update_check sys (mkModule p true) st in
  let real := update_check sys (mkModule p false) st in
  st_calls (res_state dry) = st_calls st
  /\ st_label (res_state dry) = st_label st
  /\ st_changed (res_state dry) = st_changed (res_state real)
  /\ res_raised dry = res_raised real.
Proof.
  intros dry real. subst dry real. unfold update_check.
  destruct (sync_modes sys p vms Vm st st eq_refl eq_refl)
    as (Hl & Hc & Hch & Hr & Hother).
  destruct (_update_label_assignments sys (mkModule p true) vms Vm st)
    as [[] sd | ed sd];
    destruct (_update_label_assignments sys (mkModule p false) vms Vm st)
      as [[] sr | er sr];
    simpl in *; try discriminate; auto.
  assert (Hobjs : label_objs hosts (st_label sd) = label_objs hosts (st_label sr)).
  { rewrite Hl. symmetry. apply Hother. discriminate. }
  destruct (sync_modes sys p hosts Host sd sr Hobjs Hch)
    as (Hl2 & Hc2 & Hch2 & Hr2 & _).
  destruct (_update_label_assignments sys (mkModule p true) hosts Host sd)
    as [[] sd2 | ed2 sd2];
    destruct (_update_label_assignments sys (mkModule p false) hosts Host sr)
      as [[] sr2 | er2 sr2];
    simpl in *; try discriminate; repeat split; congruence.
Qed.

(** ** An unset list *)

Lemma sync_unset_noop sys m name ty st :
  param_list name (params m) = None ->
  _update_label_assignments sys m name ty st = Ok tt st.
Proof.
  intros Hp. unfold _update_label_assignments. now rewrite Hp.
Qed.

(** C5.  When the list for [name] is unset ([None]),
    [_update_label_assignments] returns with the state it was given: no
    call is added to the log, the label keeps its assignments, and the
    [changed] flag is what it was. *)
Theorem unset_list_skips_sync sys m name ty st :
  param_list name (params m) = None ->
  _update_label_assignments sys m name ty st = Ok tt st.
Proof.
  intros Hp. unfold _update_label_assignments.
  destruct (param_list name (params m)); [discriminate | reflexivity].
Qed.

Lemma unset_list_skips_sync_witness :
  param_list hosts (params (demo_module (Some "mycluster") (Some ["vm1"]) None false))
  = None
  /\ _update_label_assignments demo_sys
       (demo_module (Some "mycluster") (Some ["vm1"]) None false) hosts Host
       (start (demo_label ["id3"] ["h1"; "h2"]))
     = Ok tt (start (demo_label ["id3"] ["h1"; "h2"])).
Proof.
  split; [reflexivity |].
  apply (unset_list_skips_sync demo_sys
           (demo_module (Some "mycluster") (Some ["vm1"]) None false) hosts Host
           (start (demo_label ["id3"] ["h1"; "h2"]))).
  reflexivity.
Defined.

(** ** A desired name the search does not find *)

Lemma param_list_set name v p : param_list name (set_param_list name v p) = v.
Proof. destruct name; reflexivity. Qed.

Lemma p_cluster_set name v p : p_cluster (set_param_list name v p) = p_cluster p.
Proof. destruct name; reflexivity. Qed.

Lemma to_add_remove objs_service cluster objs_names d desired :
  svc_list objs_service (search_query d cluster) = [] ->
  to_add objs_service cluster objs_names (remove string_dec d desired)
  = to_add objs_service cluster objs_names desired.
Proof.
  intros Hnone. unfold to_add.
  induction desired as [| x rest IH]; simpl; [reflexivity |].
  destruct (string_dec d x) as [<- | Hne]; simpl.
  - rewrite Hnone. now destruct (negb (dd_mem d objs_names)).
  - now rewrite IH.
Qed.

Lemma list_mem_remove n d desired :
  n <> d -> list_mem n (remove string_dec d desired) = list_mem n desired.
Proof.
  intros Hne. unfold list_mem.
  induction desired as [| x rest IH]; cbn [remove existsb]; [reflexivity |].
  destruct (string_dec d x) as [<- | Hdx]; cbn [existsb].
  - rewrite IH. destruct (String.eqb_spec n d); [contradiction | reflexivity].
  - now rewrite IH.
Qed.

Lemma stale_remove d desired objs_names :
  ~ In d (dd_keys objs_names) ->
  stale (remove string_dec d desired) objs_names = stale desired objs_names.
Proof.
  unfold stale, dd_keys. induction objs_names as [| [n ids] rest IH]; simpl;
    intros Hd; [reflexivity |].
  rewrite list_mem_remove by (intros ->; auto).
  rewrite IH by auto. reflexivity.
Qed.

(** C10.  A desired name that is not among the current names and for which
    the search returns nothing is passed over: the pass has the same result
    (the same calls, the same flag, the same label, and it raises or not
    alike) as the pass with that name left out of the list. *)
Theorem unresolvable_name_is_skipped sys m name ty st desired d :
  param_list name (params m) = Some desired ->
  (forall objs_names,
      collect_objs_names (objs_service_of sys name) (p_cluster (params m))
        (label_objs name (st_label st)) [] = inr objs_names ->
      ~ In d (dd_keys objs_names)) ->
  svc_list (objs_service_of sys name) (search_query d (p_cluster (params m))) = [] ->
  _update_label_assignments sys m name ty st
  = _update_label_assignments sys
      (mkModule
         (set_param_list name (Some (remove string_dec d desired)) (params m))
         (check_mode m))
      name ty st.
Proof.
  intros Hp Hnot Hnone.
  set (m' := mkModule _ _).
  assert (Hp' : param_list name (params m') = Some (remove string_dec d desired))
    by apply param_list_set.
  assert (Hcl : p_cluster (params m') = p_cluster (params m))
    by apply p_cluster_set.
  destruct (collect_objs_names (objs_service_of sys name) (p_cluster (params m))
              (label_objs name (st_label st)) []) as [e | names] eqn:Hn.
  - rewrite (update_raises _ _ _ _ _ _ _ Hp Hn).
    symmetry. apply (update_raises _ _ _ _ _ _ _ Hp'). now rewrite Hcl.
  - specialize (Hnot names eq_refl).
    assert (Hc' : check_mode m' = check_mode m) by reflexivity.
    clearbody m'.
    destruct (check_mode m) eqn:Hc.
    + rewrite (update_dry _ _ _ _ _ _ _ Hc Hp Hn).
      rewrite (update_dry sys m' name ty st _ names Hc' Hp')
        by (now rewrite Hcl).
      rewrite Hcl, to_add_remove, stale_remove by assumption. reflexivity.
    + rewrite (update_real _ _ _ _ _ _ _ Hc Hp Hn).
      rewrite (update_real sys m' name ty st _ names Hc' Hp')
        by (now rewrite Hcl).
      unfold to_remove. simpl.
      rewrite Hcl, to_add_remove, stale_remove by assumption. reflexivity.
Qed.

Lemma unresolvable_name_is_skipped_witness :
  _update_label_assignments demo_sys
    (demo_module (Some "mycluster") (Some ["vm1"; "ghost"; "vm2"]) None false)
    vms Vm (start (demo_label ["id2"; "id3"] []))
  = _update_label_assignments demo_sys
      (demo_module (Some "mycluster") (Some ["vm1"; "vm2"]) None false)
      vms Vm (start (demo_label ["id2"; "id3"] [])).
Proof.
  apply (unresolvable_name_is_skipped demo_sys
           (demo_module (Some "mycluster") (Some ["vm1"; "ghost"; "vm2"]) None false)
           vms Vm (start (demo_label ["id2"; "id3"] []))
           ["vm1"; "ghost"; "vm2"] "ghost").
  - reflexivity.
  - intros objs_names H. vm_compute in H. inversion H; subst.
    vm_compute. intuition discriminate.
  - reflexivity.
Defined.

(** ** Several objects with one name *)

(** C7, as amended.  Outside check mode, with a list given for [name]: the
    ids of all current objects that bear one name (inside the cluster
    filter) are grouped under the single entry of that name; when the name
    is not desired, each of these ids gets a remove call; and for a desired
    name that is not a current name, every object the search returns gets
    an add call. *)
Theorem same_name_all_removed_all_found_added sys m name ty st desired objs_names :
  check_mode m = false ->
  param_list name (params m) = Some desired ->
  collect_objs_names (objs_service_of sys name) (p_cluster (params m))
    (label_objs name (st_label st)) [] = inr objs_names ->
  exists new_calls,
    st_calls (res_state (_update_label_assignments sys m name ty st))
    = st_calls st ++ new_calls
    /\ NoDup (dd_keys objs_names)
    /\ (forall n i,
          In i (label_objs name (st_label st)) ->
          in_scope (objs_service_of sys name) (p_cluster (params m)) n i ->
          dd_has objs_names n i)
    /\ (forall n ids i,
          In (n, ids) objs_names -> ~ In n desired -> In i ids ->
          In (AssignmentRemove name (label_id (st_label st)) i) new_calls)
    /\ (forall d o,
          In d desired -> ~ In d (dd_keys objs_names) ->
          In o (svc_list (objs_service_of sys name)
                  (search_query d (p_cluster (params m)))) ->
          In (AssignmentAdd name (label_id (st_label st)) ty (obj_id o)) new_calls).
Proof.
  intros Hc Hp Hn. rewrite (update_real _ _ _ _ _ _ _ Hc Hp Hn). simpl.
  eexists. split; [reflexivity |]. repeat split.
  - eapply collect_NoDup; [| exact Hn]. constructor.
  - intros n i Hi Hs. apply (collect_has _ _ _ _ _ Hn). auto.
  - intros n ids i Hin Hnd Hi. apply in_or_app. right.
    apply in_map_iff. exists i. split; [reflexivity |].
    unfold to_remove. apply in_flat_map. exists (n, ids). split; [| assumption].
    unfold stale. apply filter_In. split; [assumption |]. simpl.
    apply list_mem_false in Hnd. now rewrite Hnd.
  - intros d o Hd Hnk Ho. apply in_or_app. left.
    apply in_map_iff. exists o. split; [reflexivity |].
    unfold to_add. apply in_flat_map. exists d. split; [assumption |].
    replace (dd_mem d objs_names) with false; [assumption |].
    symmetry. apply list_mem_false. assumption.
Qed.

Lemma same_name_all_removed_all_found_added_witness :
  exists new_calls,
    st_calls
      (res_state
         (_update_label_assignments demo_sys
            (demo_module (Some "mycluster") (Some ["vm2"]) None false) vms Vm
            (start (demo_label ["id1"; "id3"; "id5"] []))))
    = [] ++ new_calls
    /\ In (AssignmentRemove vms "L" "id1") new_calls
    /\ In (AssignmentRemove vms "L" "id5") new_calls
    /\ In (AssignmentAdd vms "L" Vm "id2") new_calls.
Proof.
  destruct (same_name_all_removed_all_found_added demo_sys
              (demo_module (Some "mycluster") (Some ["vm2"]) None false) vms Vm
              (start (demo_label ["id1"; "id3"; "id5"] [])) ["vm2"]
              [("vm1", ["id1"; "id5"]); ("vm3", ["id3"])]
              eq_refl eq_refl eq_refl)
    as (new_calls & Hcalls & _ & _ & Hrem & Hadd).
  exists new_calls. split; [exact Hcalls |]. repeat split.
  - apply (Hrem "vm1" ["id1"; "id5"] "id1"); simpl; intuition discriminate.
  - apply (Hrem "vm1" ["id1"; "id5"] "id5"); simpl; intuition discriminate.
  - apply (Hadd "vm2" (mkObj "id2" "vm2" "mycluster")); simpl;
      intuition discriminate.
Defined.

(** C7, the claim as written fails: the search for ["vm1"] in
    ["mycluster"] returns two objects, and both get an add call, not only
    the first. *)
Lemma add_by_name_assigns_every_match :
  svc_list (vms_service demo_sys) (search_query "vm1" (Some "mycluster"))
  = [mkObj "id1" "vm1" "mycluster"; mkObj "id5" "vm1" "mycluster"]
  /\ st_calls
       (res_state
          (_update_label_assignments demo_sys
             (demo_module (Some "mycluster") (Some ["vm1"]) None false) vms Vm
             (start (demo_label [] []))))
     = [AssignmentAdd vms "L" Vm "id1"; AssignmentAdd vms "L" Vm "id5"]
  /\ ~ (exists c,
           st_calls
             (res_state
                (_update_label_assignments demo_sys
                   (demo_module (Some "mycluster") (Some ["vm1"]) None false)
                   vms Vm (start (demo_label [] []))))
           = [c]).
Proof.
  split; [reflexivity |]. split; [reflexivity |].
  intros [c H]. vm_compute in H. discriminate.
Qed.

(** ** Assignments outside the cluster filter *)

Lemma other_cluster_not_listed objs_service c ids objs_names i o :
  svc_get objs_service i = Some o ->
  obj_cluster o <> c ->
  collect_objs_names objs_service (Some c) ids [] = inr objs_names ->
  forall n, ~ dd_has objs_names n i.
Proof.
  intros Hget Hne Hn n Hhas.
  apply (collect_has _ _ _ _ _ Hn) in Hhas.
  destruct Hhas as [[ids' [[] _]] | [_ [o' [Hg [_ Hok]]]]].
  rewrite Hget in Hg. inversion Hg; subst o'. simpl in Hok.
  apply String.eqb_eq in Hok. contradiction.
Qed.

Lemma other_cluster_not_collected objs_service c ids i o :
  svc_get objs_service i = Some o ->
  obj_cluster o <> c ->
  collect_objs_names objs_service (Some c) (assignment_remove i ids) []
  = collect_objs_names objs_service (Some c) ids [].
Proof.
  intros Hget Hne. unfold assignment_remove. apply collect_filter.
  - intros j o' _ Hj Hg. apply negb_false_iff, String.eqb_eq in Hj. subst j.
    rewrite Hget in Hg. inversion Hg; subst o'. simpl.
    apply String.eqb_neq. assumption.
  - intros j _ Hj. apply negb_false_iff, String.eqb_eq in Hj. subst j.
    congruence.
Qed.

Lemma not_in_to_remove desired objs_names i :
  (forall n, ~ dd_has objs_names n i) -> ~ In i (to_remove desired objs_names).
Proof.
  intros Hnot Hin. unfold to_remove in Hin. apply in_flat_map in Hin.
  destruct Hin as [[n ids] [Hst Hi]]. apply filter_In in Hst.
  apply (Hnot n). exists ids. split; [apply Hst | exact Hi].
Qed.

(** C6.  With a cluster filter [c], an assigned object of another cluster is
    ignored by the pass: it stays assigned and no remove call names it; it
    is listed under no name of [objs_names], which is the dictionary the
    pass would build without it; and the pass issues the same calls, ends
    with the same [changed] flag and raises or not alike as the pass from
    the state without that assignment. *)
Theorem other_cluster_assignment_ignored sys m name ty st c i o :
  p_cluster (params m) = Some c ->
  In i (label_objs name (st_label st)) ->
  svc_get (objs_service_of sys name) i = Some o ->
  obj_cluster o <> c ->
  let objs := label_objs name (st_label st) in
  let st_without :=
    mkSt (set_label_objs name (assignment_remove i objs) (st_label st))
         (st_changed st) (st_calls st) in
  let r := _update_label_assignments sys m name ty st in
  let r_without := _update_label_assignments sys m name ty st_without in
  In i (label_objs name (st_label (res_state r)))
  /\ (exists new_calls,
        st_calls (res_state r) = st_calls st ++ new_calls
        /\ st_calls (res_state r_without) = st_calls st ++ new_calls
        /\ ~ In (AssignmentRemove name (label_id (st_label st)) i) new_calls)
  /\ (forall objs_names,
        collect_objs_names (objs_service_of sys name) (Some c) objs []
        = inr objs_names ->
        forall n, ~ dd_has objs_names n i)
  /\ collect_objs_names (objs_service_of sys name) (Some c)
       (assignment_remove i objs) []
     = collect_objs_names (objs_service_of sys name) (Some c) objs []
  /\ st_changed (res_state r) = st_changed (res_state r_without)
  /\ res_raised r = res_raised r_without.
Proof.
  intros Hcl Hin Hget Hne objs st_without r r_without. subst objs.
  set (objs := label_objs name (st_label st)) in *.
  pose proof (other_cluster_not_collected _ c objs _ _ Hget Hne) as Hsame.
  assert (Hlisted :
    forall objs_names,
      collect_objs_names (objs_service_of sys name) (Some c) objs [] = inr objs_names ->
      forall n, ~ dd_has objs_names n i).
  { intros objs_names Hn. eapply other_cluster_not_listed; eassumption. }
  assert (Hobjs : label_objs name (st_label st_without) = assignment_remove i objs)
    by apply label_objs_set.
  assert (Hid : label_id (st_label st_without) = label_id (st_label st))
    by apply label_id_set.
  cut (In i (label_objs name (st_label (res_state r)))
       /\ (exists new_calls,
             st_calls (res_state r) = st_calls st ++ new_calls
             /\ st_calls (res_state r_without) = st_calls st ++ new_calls
             /\ ~ In (AssignmentRemove name (label_id (st_label st)) i) new_calls)
       /\ st_changed (res_state r) = st_changed (res_state r_without)
       /\ res_raised r = res_raised r_without).
  { intros (H1 & H2 & H3 & H4). repeat split; assumption. }
  subst r r_without.
  destruct (param_list name (params m)) as [desired |] eqn:Hp.
  - destruct (collect_objs_names (objs_service_of sys name) (Some c) objs [])
      as [e | names] eqn:Hn.
    + rewrite (update_raises sys m name ty st desired e)
        by (assumption || now rewrite Hcl).
      rewrite (update_raises sys m name ty st_without desired e)
        by (assumption || now rewrite Hcl, Hobjs, Hsame).
      simpl. repeat split; auto. exists []. rewrite app_nil_r. auto.
    + specialize (Hlisted names eq_refl).
      pose proof (not_in_to_remove desired names i Hlisted) as Hkeep.
      destruct (check_mode m) eqn:Hc.
      * rewrite (update_dry sys m name ty st desired names)
          by (assumption || now rewrite Hcl).
        rewrite (update_dry sys m name ty st_without desired names)
          by (assumption || now rewrite Hcl, Hobjs, Hsame).
        simpl. repeat split; auto. exists []. rewrite app_nil_r. auto.
      * rewrite (update_real sys m name ty st desired names)
          by (assumption || now rewrite Hcl).
        rewrite (update_real sys m name ty st_without desired names)
          by (assumption || now rewrite Hcl, Hobjs, Hsame).
        cbn [res_state res_raised st_label st_changed st_calls].
        rewrite Hid. repeat split; auto.
        -- rewrite label_objs_set. apply apply_removes_In. split; [| assumption].
           apply apply_adds_In. left. assumption.
        -- eexists. split; [reflexivity |]. split; [reflexivity |].
           intros Hbad. apply in_app_or in Hbad. destruct Hbad as [Hbad | Hbad];
             apply in_map_iff in Hbad; destruct Hbad as [x [Heq Hx]].
           ++ discriminate.
           ++ inversion Heq; subst x. contradiction.
  - rewrite !sync_unset_noop by assumption.
    simpl. repeat split; auto. exists []. rewrite app_nil_r. auto.
Qed.

Lemma other_cluster_assignment_ignored_witness :
  In "id4"
    (label_objs vms
       (st_label
          (res_state
             (_update_label_assignments demo_sys
                (demo_module (Some "mycluster") (Some ["vm2"]) None false) vms Vm
                (start (demo_label ["id3"; "id4"] []))))))
  /\ st_changed
       (res_state
          (_update_label_assignments demo_sys
             (demo_module (Some "mycluster") (Some ["vm2"]) None false) vms Vm
             (start (demo_label ["id3"; "id4"] []))))
     = st_changed
         (res_state
            (_update_label_assignments demo_sys
               (demo_module (Some "mycluster") (Some ["vm2"]) None false) vms Vm
               (start (demo_label ["id3"] [])))).
Proof.
  assert (Hin : In "id4" (label_objs vms (st_label (start (demo_label ["id3"; "id4"] [])))))
    by (simpl; auto).
  assert (Hne : obj_cluster (mkObj "id4" "vm4" "othercluster") <> "mycluster")
    by discriminate.
  destruct (other_cluster_assignment_ignored demo_sys
              (demo_module (Some "mycluster") (Some ["vm2"]) None false) vms Vm
              (start (demo_label ["id3"; "id4"] [])) "mycluster" "id4"
              (mkObj "id4" "vm4" "othercluster") eq_refl Hin eq_refl Hne)
    as (Hstay & _ & _ & _ & Hflag & _).
  split; [exact Hstay | exact Hflag].
Defined.

(** ** The assignments after a real pass *)

Lemma in_scope_name objs_service cluster n n' i :
  in_scope objs_service cluster n i -> in_scope objs_service cluster n' i -> n = n'.
Proof.
  intros [o [Hg [Hn _]]] [o' [Hg' [Hn' _]]]. congruence.
Qed.

Lemma exactb_in_scope objs_service cluster d o :
  exactb objs_service cluster d = true ->
  In o (svc_list objs_service (search_query d cluster)) ->
  in_scope objs_service cluster d (obj_id o).
Proof.
  unfold exactb. rewrite forallb_forall. intros H Ho. specialize (H o Ho).
  destruct (svc_get objs_service (obj_id o)) as [o' |] eqn:Hg; [| discriminate].
  apply andb_true_iff in H. destruct H as [Hn Hc]. apply String.eqb_eq in Hn.
  exists o'. auto.
Qed.

Lemma to_add_In objs_service cluster objs_names desired o :
  In o (to_add objs_service cluster objs_names desired) <->
  exists d,
    In d desired /\ ~ In d (dd_keys objs_names)
    /\ In o (svc_list objs_service (search_query d cluster)).
Proof.
  unfold to_add. rewrite in_flat_map. split.
  - intros [d [Hd Ho]]. exists d. split; [assumption |].
    destruct (dd_mem d objs_names) eqn:E; simpl in Ho; [destruct Ho |].
    split; [| assumption]. apply list_mem_false. exact E.
  - intros [d [Hd [Hk Ho]]]. exists d. split; [assumption |].
    apply list_mem_false in Hk. unfold dd_mem. rewrite Hk. exact Ho.
Qed.

Lemma to_remove_In desired objs_names i :
  In i (to_remove desired objs_names) <->
  exists n ids, In (n, ids) objs_names /\ ~ In n desired /\ In i ids.
Proof.
  unfold to_remove, stale. rewrite in_flat_map. split.
  - intros [[n ids] [Hst Hi]]. apply filter_In in Hst. destruct Hst as [Hin Hns].
    exists n, ids. repeat split; auto. apply list_mem_false.
    apply negb_true_iff. exact Hns.
  - intros [n [ids [Hin [Hns Hi]]]]. exists (n, ids). split; [| exact Hi].
    apply filter_In. split; [exact Hin |]. simpl. apply negb_true_iff.
    apply list_mem_false. exact Hns.
Qed.

Section AfterSync.

Variable objs_service : ObjsService.
Variable cluster : option string.
Variables desired objs : list string.
Variable objs_names : NamesDict.

Hypothesis Hexact : forallb (exactb objs_service cluster) desired = true.
Hypothesis Hnames :
  collect_objs_names objs_service cluster objs [] = inr objs_names.

Local Abbreviation found := (to_add objs_service cluster objs_names desired).
Local Abbreviation gone := (to_remove desired objs_names).
Local Abbreviation objs' :=
  (apply_removes gone (apply_adds (map obj_id found) objs)).

Lemma found_in_scope o :
  In o found ->
  exists d, In d desired /\ in_scope objs_service cluster d (obj_id o).
Proof.
  intros Ho. apply to_add_In in Ho. destruct Ho as [d [Hd [_ Ho]]].
  exists d. split; [assumption |]. apply exactb_in_scope; [| assumption].
  rewrite forallb_forall in Hexact. auto.
Qed.

(** An id under a desired name is not among the ids to remove. *)
Lemma desired_not_gone d i :
  In d desired -> in_scope objs_service cluster d i -> ~ In i gone.
Proof.
  intros Hd Hs Hg. apply to_remove_In in Hg.
  destruct Hg as [n [ids [Hin [Hns Hi]]]].
  assert (Hhas : dd_has objs_names n i) by (exists ids; auto).
  apply (collect_has _ _ _ _ _ Hnames) in Hhas.
  destruct Hhas as [[ids' [[] _]] | [_ Hs']].
  rewrite (in_scope_name _ _ _ _ _ Hs Hs') in Hd. contradiction.
Qed.

Lemma objs'_known i : In i objs' -> svc_get objs_service i <> None.
Proof.
  intros Hi. apply apply_removes_In in Hi. destruct Hi as [Hi _].
  apply apply_adds_In in Hi. destruct Hi as [Hi | Hi].
  - eapply collect_known; eassumption.
  - apply in_map_iff in Hi. destruct Hi as [o [<- Ho]].
    destruct (found_in_scope o Ho) as [d [_ [o' [Hg _]]]]. congruence.
Qed.

Lemma objs'_names_desired n i :
  In i objs' -> in_scope objs_service cluster n i -> In n desired.
Proof.
  intros Hi Hs. apply apply_removes_In in Hi. destruct Hi as [Hi Hkeep].
  apply apply_adds_In in Hi. destruct Hi as [Hi | Hi].
  - destruct (list_mem n desired) eqn:E; [now apply list_mem_In |].
    exfalso. apply Hkeep. apply to_remove_In.
    assert (Hhas : dd_has objs_names n i).
    { apply (collect_has _ _ _ _ _ Hnames). auto. }
    destruct Hhas as [ids [Hin Hids]]. exists n, ids.
    repeat split; auto. now apply list_mem_false.
  - apply in_map_iff in Hi. destruct Hi as [o [<- Ho]].
    destruct (found_in_scope o Ho) as [d [Hd Hs']].
    now rewrite (in_scope_name _ _ _ _ _ Hs Hs').
Qed.

Lemma desired_in_objs' d :
  In d desired ->
  (exists i, In i objs' /\ in_scope objs_service cluster d i)
  \/ (~ In d (dd_keys objs_names)
      /\ svc_list objs_service (search_query d cluster) = []).
Proof.
  intros Hd. destruct (dd_mem d objs_names) eqn:E.
  - left. apply dd_mem_In in E. apply (collect_keys _ _ _ _ Hnames) in E.
    destruct E as [i [Hi Hs]]. exists i. split; [| assumption].
    apply apply_removes_In. split; [| eapply desired_not_gone; eassumption].
    apply apply_adds_In. auto.
  - apply list_mem_false in E.
    destruct (svc_list objs_service (search_query d cluster)) as [| o rest] eqn:El.
    + right. auto.
    + left. assert (Ho : In o found).
      { apply to_add_In. exists d. rewrite El. simpl. auto. }
      assert (Hs : in_scope objs_service cluster d (obj_id o)).
      { apply exactb_in_scope; [| rewrite El; simpl; auto].
        rewrite forallb_forall in Hexact. auto. }
      exists (obj_id o). split; [| assumption].
      apply apply_removes_In. split; [| eapply desired_not_gone; eassumption].
      apply apply_adds_In. right. now apply in_map.
Qed.

(** The dictionary a later pass builds from the assignments this pass
    leaves. *)
Lemma names_after_sync :
  exists objs_names',
    collect_objs_names objs_service cluster objs' [] = inr objs_names'
    /\ (forall n, In n (dd_keys objs_names') -> In n desired)
    /\ (forall d,
          In d desired ->
          In d (dd_keys objs_names')
          \/ svc_list objs_service (search_query d cluster) = []).
Proof.
  destruct (collect_total objs_service cluster objs' objs'_known [])
    as [names' Hn'].
  exists names'. split; [exact Hn' |]. split.
  - intros n Hk. apply (collect_keys _ _ _ _ Hn') in Hk.
    destruct Hk as [i [Hi Hs]]. eapply objs'_names_desired; eassumption.
  - intros d Hd. destruct (desired_in_objs' d Hd) as [[i [Hi Hs]] | [_ Hnone]].
    + left. apply (collect_keys _ _ _ _ Hn'). exists i. auto.
    + right. exact Hnone.
Qed.

End AfterSync.

(** The names assigned after a pass that returned. *)
Lemma names_after_returned_pass sys m name ty st st' desired :
  check_mode m = false ->
  param_list name (params m) = Some desired ->
  forallb (resolvesb (objs_service_of sys name) (p_cluster (params m))) desired
  = true ->
  _update_label_assignments sys m name ty st = Ok tt st' ->
  (forall n,
      (exists i,
          In i (label_objs name (st_label st'))
          /\ in_scope (objs_service_of sys name) (p_cluster (params m)) n i)
      <-> In n desired)
  /\ exists objs_names',
       collect_objs_names (objs_service_of sys name) (p_cluster (params m))
         (label_objs name (st_label st')) [] = inr objs_names'
       /\ forall n, In n (dd_keys objs_names') <-> In n desired.
Proof.
  intros Hc Hp Hres Hrun.
  assert (Hexact :
    forallb (exactb (objs_service_of sys name) (p_cluster (params m))) desired = true).
  { rewrite forallb_forall in *. intros d Hd. specialize (Hres d Hd).
    unfold resolvesb in Hres. apply andb_true_iff in Hres. apply Hres. }
  destruct (collect_objs_names (objs_service_of sys name) (p_cluster (params m))
              (label_objs name (st_label st)) []) as [e | names] eqn:Hn.
  - rewrite (update_raises _ _ _ _ _ _ _ Hp Hn) in Hrun. discriminate.
  - rewrite (update_real _ _ _ _ _ _ _ Hc Hp Hn) in Hrun. simpl in Hrun.
    inversion Hrun; subst st'; clear Hrun. simpl. rewrite label_objs_set.
    destruct (names_after_sync _ _ _ _ _ Hexact Hn) as (names' & Hn' & Hsub & Hsup).
    assert (Hkeys : forall n, In n (dd_keys names') <-> In n desired).
    { intros n. split; [apply Hsub |]. intros Hd.
      destruct (Hsup n Hd) as [Hk | Hnone]; [exact Hk |].
      rewrite forallb_forall in Hres. specialize (Hres n Hd).
      unfold resolvesb in Hres. rewrite Hnone in Hres. discriminate. }
    split.
    + intros n. rewrite <- Hkeys. symmetry. apply (collect_keys _ _ _ _ Hn').
    + exists names'. auto.
Qed.

(** A pass returns when the engine knows the ids assigned for the kind. *)
Lemma pass_returns sys m name ty st :
  (forall desired,
      param_list name (params m) = Some desired ->
      forall i, In i (label_objs name (st_label st)) ->
                svc_get (objs_service_of sys name) i <> None) ->
  exists st', _update_label_assignments sys m name ty st = Ok tt st'.
Proof.
  intros Hk.
  destruct (param_list name (params m)) as [desired |] eqn:Hp.
  - destruct (collect_total (objs_service_of sys name) (p_cluster (params m))
                (label_objs name (st_label st)) (Hk desired eq_refl) [])
      as [names Hn].
    destruct (check_mode m) eqn:Hc.
    + rewrite (update_dry _ _ _ _ _ _ _ Hc Hp Hn). eexists. reflexivity.
    + rewrite (update_real _ _ _ _ _ _ _ Hc Hp Hn). eexists. reflexivity.
  - exists st. now apply sync_unset_noop.
Qed.

(** C1, as amended.  Outside check mode, when the engine knows the ids
    assigned for [name] and every name of the list given for [name]
    resolves to at least one object, each object the search returns being
    known to the engine under exactly that name and inside the cluster
    filter, the pass returns, and the names of the objects then assigned to
    the label inside the cluster filter are exactly the names of the list;
    equivalently, the dictionary a pass builds from the new assignments has
    exactly these keys. *)
Theorem sync_reaches_desired sys m name ty st desired :
  check_mode m = false ->
  param_list name (params m) = Some desired ->
  (forall i, In i (label_objs name (st_label st)) ->
             svc_get (objs_service_of sys name) i <> None) ->
  forallb (resolvesb (objs_service_of sys name) (p_cluster (params m))) desired
  = true ->
  exists st',
    _update_label_assignments sys m name ty st = Ok tt st'
    /\ (forall n,
          (exists i,
              In i (label_objs name (st_label st'))
              /\ in_scope (objs_service_of sys name) (p_cluster (params m)) n i)
          <-> In n desired)
    /\ exists objs_names',
         collect_objs_names (objs_service_of sys name) (p_cluster (params m))
           (label_objs name (st_label st')) [] = inr objs_names'
         /\ forall n, In n (dd_keys objs_names') <-> In n desired.
Proof.
  intros Hc Hp Hk Hres.
  destruct (pass_returns sys m name ty st) as [st' Hrun].
  { intros desired' _. exact Hk. }
  exists st'. split; [exact Hrun |].
  exact (names_after_returned_pass sys m name ty st st' desired Hc Hp Hres Hrun).
Qed.

Lemma sync_reaches_desired_witness :
  exists st',
    _update_label_assignments demo_sys
      (demo_module (Some "mycluster") (Some ["vm1"; "vm2"]) None false)
      vms Vm (start (demo_label ["id2"; "id3"; "id4"] []))
    = Ok tt st'
    /\ ((exists i,
            In i (label_objs vms (st_label st'))
            /\ in_scope (vms_service demo_sys) (Some "mycluster") "vm1" i)
        <-> In "vm1" ["vm1"; "vm2"])
    /\ ((exists i,
            In i (label_objs vms (st_label st'))
            /\ in_scope (vms_service demo_sys) (Some "mycluster") "vm3" i)
        <-> In "vm3" ["vm1"; "vm2"]).
Proof.
  destruct (sync_reaches_desired demo_sys
              (demo_module (Some "mycluster") (Some ["vm1"; "vm2"]) None false)
              vms Vm (start (demo_label ["id2"; "id3"; "id4"] []))
              ["vm1"; "vm2"] eq_refl eq_refl)
    as (st' & Hrun & Hnames & _).
  - intros i Hi. simpl in Hi.
    repeat (destruct Hi as [<- | Hi]; [discriminate |]). destruct Hi.
  - reflexivity.
  - exists st'. split; [exact Hrun |]. split; apply Hnames.
Defined.

(** C1, the claim as written fails: the search for the desired name [vm*]
    returns an object, and the pass assigns it; but the engine knows that
    object as [vm1], so the assigned names are not the desired names. *)
Lemma wildcard_name_is_not_reached :
  nonempty
    (svc_list (vms_service pattern_sys) (search_query "vm*" (Some "mycluster")))
  = true
  /\ _update_label_assignments pattern_sys
       (demo_module (Some "mycluster") (Some ["vm*"]) None false) vms Vm
       (start (demo_label [] []))
     = Ok tt
         (mkSt (demo_label ["id1"] []) true [AssignmentAdd vms "L" Vm "id1"])
  /\ in_scope (vms_service pattern_sys) (Some "mycluster") "vm1" "id1"
  /\ ~ In "vm1" ["vm*"]
  /\ ~ (exists i,
           In i ["id1"]
           /\ in_scope (vms_service pattern_sys) (Some "mycluster") "vm*" i).
Proof.
  split; [reflexivity |]. split; [reflexivity |]. split.
  - exists (mkObj "id1" "vm1" "mycluster"). repeat split; reflexivity.
  - split.
    + intros [H | []]. discriminate.
    + intros [i [[<- | []] [o [Hg [Hn _]]]]].
      vm_compute in Hg. inversion Hg; subst o. discriminate.
Qed.

(** ** A second pass *)

Lemma stale_nil desired objs_names :
  (forall n, In n (dd_keys objs_names) -> In n desired) ->
  stale desired objs_names = [].
Proof.
  unfold stale, dd_keys. induction objs_names as [| [n ids] rest IH]; simpl;
    intros H; [reflexivity |].
  replace (list_mem n desired) with true by (symmetry; apply list_mem_In; auto).
  simpl. auto.
Qed.

Lemma to_add_nil objs_service cluster objs_names desired :
  (forall d,
      In d desired ->
      In d (dd_keys objs_names)
      \/ svc_list objs_service (search_query d cluster) = []) ->
  to_add objs_service cluster objs_names desired = [].
Proof.
  unfold to_add. induction desired as [| d rest IH]; simpl; intros H;
    [reflexivity |].
  rewrite IH by auto. rewrite app_nil_r.
  destruct (H d (or_introl eq_refl)) as [Hk | Hnone].
  - apply dd_mem_In in Hk. now rewrite Hk.
  - rewrite Hnone. now destruct (negb (dd_mem d objs_names)).
Qed.

Lemma settled_noop sys m name ty st :
  settled sys m name (label_objs name (st_label st)) ->
  _update_label_assignments sys m name ty st = Ok tt st.
Proof.
  unfold settled. intros H.
  destruct (param_list name (params m)) as [desired |] eqn:Hp.
  - destruct H as (names & Hn & Hst & Hadd).
    destruct (check_mode m) eqn:Hc.
    + rewrite (update_dry _ _ _ _ _ _ _ Hc Hp Hn), Hst, Hadd.
      destruct st; simpl. now rewrite !orb_false_r.
    + rewrite (update_real _ _ _ _ _ _ _ Hc Hp Hn). unfold to_remove.
      rewrite Hst, Hadd. unfold apply_removes, apply_adds.
      destruct st; simpl. rewrite set_label_objs_same, !orb_false_r, app_nil_r.
      reflexivity.
  - now apply sync_unset_noop.
Qed.

Lemma sync_settles sys m name ty st st' :
  check_mode m = false ->
  search_exact sys m name = true ->
  _update_label_assignments sys m name ty st = Ok tt st' ->
  settled sys m name (label_objs name (st_label st')).
Proof.
  unfold search_exact, settled. intros Hc Hexact Hrun.
  destruct (param_list name (params m)) as [desired |] eqn:Hp; [| exact I].
  destruct (collect_objs_names (objs_service_of sys name) (p_cluster (params m))
              (label_objs name (st_label st)) []) as [e | names] eqn:Hn.
  - rewrite (update_raises _ _ _ _ _ _ _ Hp Hn) in Hrun. discriminate.
  - rewrite (update_real _ _ _ _ _ _ _ Hc Hp Hn) in Hrun. simpl in Hrun.
    inversion Hrun; subst st'; clear Hrun. simpl. rewrite label_objs_set.
    destruct (names_after_sync _ _ _ _ _ Hexact Hn) as (names' & Hn' & Hsub & Hsup).
    exists names'. split; [exact Hn' |]. split.
    + now apply stale_nil.
    + now apply to_add_nil.
Qed.

Lemma sync_other_kind sys m name ty st name' :
  name <> name' ->
  label_objs name'
    (st_label (res_state (_update_label_assignments sys m name ty st)))
  = label_objs name' (st_label st).
Proof.
  intros Hne.
  destruct (param_list name (params m)) as [desired |] eqn:Hp.
  - destruct (collect_objs_names (objs_service_of sys name) (p_cluster (params m))
                (label_objs name (st_label st)) []) as [e | names] eqn:Hn.
    + now rewrite (update_raises _ _ _ _ _ _ _ Hp Hn).
    + destruct (check_mode m) eqn:Hc.
      * now rewrite (update_dry _ _ _ _ _ _ _ Hc Hp Hn).
      * rewrite (update_real _ _ _ _ _ _ _ Hc Hp Hn). simpl.
        now apply label_objs_set_other.
  - now rewrite sync_unset_noop.
Qed.

(** A second [update_check] after one that returned. *)
Lemma second_update_check_noop sys m st st1 b :
  check_mode m = false ->
  search_exact sys m vms = true ->
  search_exact sys m hosts = true ->
  update_check sys m st = Ok b st1 ->
  update_check sys m (mkSt (st_label st1) false [])
  = Ok true (mkSt (st_label st1) false []).
Proof.
  intros Hc Hv Hh Hrun. unfold update_check in *.
  destruct (_update_label_assignments sys m vms Vm st) as [[] sa | e sa] eqn:Ha;
    simpl in Hrun; [| discriminate].
  destruct (_update_label_assignments sys m hosts Host sa) as [[] sb | e sb] eqn:Hb;
    simpl in Hrun; [| discriminate].
  inversion Hrun; subst st1 b; clear Hrun.
  assert (Hsv : settled sys m vms (label_objs vms (st_label sb))).
  { replace sb with (res_state (_update_label_assignments sys m hosts Host sa))
      by (now rewrite Hb).
    rewrite sync_other_kind by discriminate.
    eapply sync_settles; eassumption. }
  assert (Hsh : settled sys m hosts (label_objs hosts (st_label sb))).
  { eapply sync_settles; eassumption. }
  rewrite (settled_noop sys m vms Vm (mkSt (st_label sb) false []) Hsv). simpl.
  rewrite (settled_noop sys m hosts Host (mkSt (st_label sb) false []) Hsh).
  reflexivity.
Qed.

Lemma update_check_returns sys m st :
  (forall name desired,
      param_list name (params m) = Some desired ->
      forall i, In i (label_objs name (st_label st)) ->
                svc_get (objs_service_of sys name) i <> None) ->
  exists st1, update_check sys m st = Ok true st1.
Proof.
  intros Hk. unfold update_check.
  destruct (pass_returns sys m vms Vm st (Hk vms)) as [sa Ha].
  assert (Hhosts : label_objs hosts (st_label sa) = label_objs hosts (st_label st)).
  { replace sa with (res_state (_update_label_assignments sys m vms Vm st))
      by (now rewrite Ha).
    apply sync_other_kind. discriminate. }
  destruct (pass_returns sys m hosts Host sa) as [sb Hb].
  { intros desired Hp. rewrite Hhosts. exact (Hk hosts desired Hp). }
  exists sb. rewrite Ha. simpl. rewrite Hb. reflexivity.
Qed.

(** C2, as amended.  Outside check mode, when the engine knows the ids
    assigned for the kinds whose list is given and answers the search for a
    desired name only with objects it knows under exactly that name inside
    the cluster filter, a first [update_check] returns, and a second
    [update_check] with the same parameters on the label the first one left,
    started with [changed] unset, returns with [changed] still unset; it
    also issues no call and leaves the label as it is. *)
Theorem reconciliation_idempotent sys m st :
  check_mode m = false ->
  search_exact sys m vms = true ->
  search_exact sys m hosts = true ->
  (forall name desired,
      param_list name (params m) = Some desired ->
      forall i, In i (label_objs name (st_label st)) ->
                svc_get (objs_service_of sys name) i <> None) ->
  exists st1,
    update_check sys m st = Ok true st1
    /\ update_check sys m (mkSt (st_label st1) false [])
       = Ok true (mkSt (st_label st1) false []).
Proof.
  intros Hc Hv Hh Hk.
  destruct (update_check_returns sys m st Hk) as [st1 Hrun].
  exists st1. split; [exact Hrun |].
  exact (second_update_check_noop sys m st st1 true Hc Hv Hh Hrun).
Qed.

Lemma reconciliation_idempotent_witness :
  exists st1,
    update_check demo_sys
      (demo_module (Some "mycluster") (Some ["vm1"; "vm2"]) (Some []) false)
      (start (demo_label ["id2"; "id3"; "id4"] ["h1"; "h2"]))
    = Ok true st1
    /\ update_check demo_sys
         (demo_module (Some "mycluster") (Some ["vm1"; "vm2"]) (Some []) false)
         (mkSt (st_label st1) false [])
       = Ok true (mkSt (st_label st1) false []).
Proof.
  apply (reconciliation_idempotent demo_sys
           (demo_module (Some "mycluster") (Some ["vm1"; "vm2"]) (Some []) false)
           (start (demo_label ["id2"; "id3"; "id4"] ["h1"; "h2"]))
           eq_refl eq_refl eq_refl).
  intros name desired _ i Hi.
  destruct name; simpl in Hi;
    repeat (destruct Hi as [<- | Hi]; [discriminate |]); destruct Hi.
Defined.

(** C2, the claim as written fails.  With the desired name [vm*], which the
    search answers with [vm1], the second [update_check] on the label the
    first one left sets [changed] again: it assigns [vm1] once more and
    then detaches it, as its name is not desired.  And in check mode the
    first run leaves the label as it was, so the second run reports the
    same change. *)
Lemma wildcard_name_is_not_idempotent :
  update_check pattern_sys
    (demo_module (Some "mycluster") (Some ["vm*"]) None false)
    (start (demo_label [] []))
  = Ok true (mkSt (demo_label ["id1"] []) true [AssignmentAdd vms "L" Vm "id1"])
  /\ update_check pattern_sys
       (demo_module (Some "mycluster") (Some ["vm*"]) None false)
       (mkSt (demo_label ["id1"] []) false [])
     = Ok true
         (mkSt (demo_label [] []) true
            [AssignmentAdd vms "L" Vm "id1"; AssignmentRemove vms "L" "id1"])
  /\ update_check example_sys
       (demo_module (Some "mycluster") (Some ["vm1"]) None true)
       (start (demo_label [] []))
     = Ok true (mkSt (demo_label [] []) true [])
  /\ update_check example_sys
       (demo_module (Some "mycluster") (Some ["vm1"]) None true)
       (mkSt (demo_label [] []) false [])
     = Ok true (mkSt (demo_label [] []) true []).
Proof. repeat split; reflexivity. Qed.

(** ** [pre_remove]: clearing the label *)

Lemma stale_of_empty objs_names : stale [] objs_names = objs_names.
Proof.
  unfold stale. induction objs_names as [| e rest IH]; [reflexivity |].
  cbn [filter list_mem existsb negb fst]. f_equal. exact IH.
Qed.

Lemma listed_ids objs_service cluster objs objs_names i :
  collect_objs_names objs_service cluster objs [] = inr objs_names ->
  (In i (flat_map snd objs_names) <->
   In i objs /\ exists n, in_scope objs_service cluster n i).
Proof.
  intros Hn. rewrite in_flat_map. split.
  - intros [[n ids] [Hin Hi]].
    assert (Hhas : dd_has objs_names n i) by (exists ids; auto).
    apply (collect_has _ _ _ _ _ Hn) in Hhas.
    destruct Hhas as [[ids' [[] _]] | [Ho Hs]]. split; [exact Ho |].
    exists n. exact Hs.
  - intros [Ho [n Hs]].
    assert (Hhas : dd_has objs_names n i).
    { apply (collect_has _ _ _ _ _ Hn). auto. }
    destruct Hhas as [ids [Hin Hi]]. exists (n, ids). auto.
Qed.

(** A pass with the empty list: every id listed in [objs_names] is removed. *)
Lemma clear_kind sys m name ty st :
  param_list name (params m) = Some [] ->
  (forall i, In i (label_objs name (st_label st)) ->
             svc_get (objs_service_of sys name) i <> None) ->
  exists objs_names,
    collect_objs_names (objs_service_of sys name) (p_cluster (params m))
      (label_objs name (st_label st)) [] = inr objs_names
    /\ _update_label_assignments sys m name ty st =
       Ok tt
         (if check_mode m then
            mkSt (st_label st) (st_changed st || nonempty objs_names) (st_calls st)
          else
            mkSt (set_label_objs name
                    (apply_removes (flat_map snd objs_names)
                       (label_objs name (st_label st)))
                    (st_label st))
                 (st_changed st || nonempty objs_names)
                 (st_calls st
                  ++ map (remove_call name (label_id (st_label st)))
                       (flat_map snd objs_names))).
Proof.
  intros Hp Hk.
  destruct (collect_total (objs_service_of sys name) (p_cluster (params m))
              (label_objs name (st_label st)) Hk []) as [names Hn].
  exists names. split; [exact Hn |].
  destruct (check_mode m) eqn:Hc.
  - rewrite (update_dry _ _ _ _ _ _ _ Hc Hp Hn). rewrite stale_of_empty.
    unfold to_add. simpl. now rewrite orb_false_r.
  - rewrite (update_real _ _ _ _ _ _ _ Hc Hp Hn). unfold to_remove.
    rewrite stale_of_empty. unfold to_add, apply_adds. simpl.
    now rewrite orb_false_r.
Qed.

Lemma pre_remove_clears sys m st :
  (forall name i, In i (label_objs name (st_label st)) ->
                  svc_get (objs_service_of sys name) i <> None) ->
  exists vm_names host_names st',
    collect_objs_names (vms_service sys) (p_cluster (params m))
      (label_vms (st_label st)) [] = inr vm_names
    /\ collect_objs_names (hosts_service sys) (p_cluster (params m))
         (label_hosts (st_label st)) [] = inr host_names
    /\ snd (pre_remove sys m st) = Ok true st'
    /\ check_mode (fst (pre_remove sys m st)) = check_mode m
    /\ label_id (st_label st') = label_id (st_label st)
    /\ st_calls st' =
       st_calls st
       ++ (if check_mode m then []
           else clearing_calls (label_id (st_label st)) vm_names host_names)
    /\ (check_mode m = true -> st_label st' = st_label st).
Proof.
  intros Hk. unfold pre_remove. simpl.
  set (m' := mkModule _ (check_mode m)).
  destruct (clear_kind sys m' vms Vm st eq_refl (Hk vms)) as (nv & Hnv & Hv).
  unfold update_check. rewrite Hv. simpl.
  match goal with
  | |- context [_update_label_assignments sys m' hosts Host ?s] => set (st1 := s)
  end.
  assert (Hhosts : label_objs hosts (st_label st1) = label_objs hosts (st_label st)).
  { subst st1. destruct (check_mode m); reflexivity. }
  assert (Hk1 : forall i, In i (label_objs hosts (st_label st1)) ->
                          svc_get (objs_service_of sys hosts) i <> None).
  { rewrite Hhosts. apply Hk. }
  destruct (clear_kind sys m' hosts Host st1 eq_refl Hk1) as (nh & Hnh & Hh).
  rewrite Hh. simpl. rewrite Hhosts in Hnh.
  eexists nv, nh, _. split; [exact Hnv |]. split; [exact Hnh |].
  split; [reflexivity |]. split; [reflexivity |].
  subst st1. destruct (check_mode m); simpl.
  - rewrite app_nil_r. auto.
  - unfold clearing_calls. rewrite <- app_assoc.
    repeat split; auto. discriminate.
Qed.

(** ** [main] *)

Lemma absent_passes_required_if p : p_state p = absent -> required_if_ok p = true.
Proof. unfold required_if_ok. now intros ->. Qed.

Lemma clearing_calls_In label vm_names host_names name i :
  In (AssignmentRemove name label i) (clearing_calls label vm_names host_names)
  <-> In i (flat_map snd (match name with vms => vm_names | hosts => host_names end)).
Proof.
  unfold clearing_calls, remove_call. rewrite in_app_iff, !in_map_iff. split.
  - intros [[x [Heq Hx]] | [x [Heq Hx]]]; inversion Heq; subst; exact Hx.
  - intros H. destruct name; [left | right]; exists i; auto.
Qed.

Lemma clearing_calls_shape label vm_names host_names c :
  In c (clearing_calls label vm_names host_names) ->
  exists name i, c = AssignmentRemove name label i.
Proof.
  unfold clearing_calls, remove_call. rewrite in_app_iff, !in_map_iff.
  intros [[x [<- _]] | [x [<- _]]]; eauto.
Qed.

(** C4, as amended.  With [state=absent], the SDK present and a connection
    made: when no label has the name, nothing is changed and
    [changed=false] is reported; when a label has it and its assigned ids
    are known to the engine, [changed=true] is reported, and outside check
    mode exactly the assignments inside the cluster filter (all of them
    when no cluster is given) get a remove call, after which the label is
    removed, while in check mode no mutating call is issued. *)
Theorem absent_clears_then_removes_label create w eng p check :
  p_state p = absent ->
  sdk_installed w = true ->
  create_connection w = inr eng ->
  let run := main create BaseModule_remove w p check in
  (search_entity (p_name p) (eng_labels eng) = None ->
   run = mkRun [ECreateConnection; EClose] (ExitJson (mkRet false None)) None
           (Some (eng_labels eng)))
  /\ (forall entity,
        search_entity (p_name p) (eng_labels eng) = Some entity ->
        (forall name i,
            In i (label_objs name entity) ->
            svc_get (objs_service_of (eng_sys eng) name) i <> None) ->
        run_report run = ExitJson (mkRet true (Some (label_id entity)))
        /\ run_uncaught run = None
        /\ (check = true ->
            run_events run = [ECreateConnection; EClose]
            /\ run_labels run = Some (eng_labels eng))
        /\ (check = false ->
            exists cs,
              run_events run =
              ECreateConnection
                :: map ERemote cs
                   ++ [ERemote (LabelRemove (label_id entity)); EClose]
              /\ (forall name i,
                    In (AssignmentRemove name (label_id entity) i) cs <->
                    In i (label_objs name entity)
                    /\ exists n,
                         in_scope (objs_service_of (eng_sys eng) name)
                           (p_cluster p) n i)
              /\ (forall c, In c cs ->
                            exists name i,
                              c = AssignmentRemove name (label_id entity) i)
              /\ run_labels run
                 = Some (store_remove (label_id entity) (eng_labels eng)))).
Proof.
  intros Hstate Hsdk Hconn run. subst run.
  unfold main, try_block.
  rewrite (absent_passes_required_if p Hstate), Hsdk, Hconn. simpl.
  rewrite Hstate. unfold BaseModule_remove. simpl. split.
  - intros Hnone. rewrite Hnone. reflexivity.
  - intros entity Hsome Hknown. rewrite Hsome.
    destruct (pre_remove_clears (eng_sys eng) (mkModule p check)
                (mkSt entity false []) Hknown)
      as (nv & nh & st' & Hnv & Hnh & Hres & Hcm & Hid & Hcalls & Hlabel).
    simpl in Hnv, Hnh, Hid, Hcalls, Hlabel. clear Hcm.
    unfold pre_remove in *. cbn [snd] in Hres. cbv zeta. cbn [params check_mode].
    cbn [params check_mode] in Hres. rewrite Hres.
    destruct check; simpl.
    + split; [reflexivity |]. split; [reflexivity |].
      split; [| discriminate]. intros _. rewrite Hcalls. simpl. auto.
    + split; [reflexivity |]. split; [reflexivity |].
      split; [discriminate |]. intros _.
      exists (clearing_calls (label_id entity) nv nh).
      rewrite Hcalls, Hid. simpl. rewrite map_app, <- app_assoc. simpl.
      split; [reflexivity |]. split; [| split; [| reflexivity]].
      * intros name i. rewrite clearing_calls_In.
        destruct name; simpl.
        -- apply (listed_ids _ _ _ _ _ Hnv).
        -- apply (listed_ids _ _ _ _ _ Hnh).
      * apply clearing_calls_shape.
Qed.

Lemma absent_clears_then_removes_label_witness :
  run_report
    (main demo_create BaseModule_remove demo_world
       (mkParams absent None "mylabel" None None) false)
  = ExitJson (mkRet true (Some "L"))
  /\ run_labels
       (main demo_create BaseModule_remove demo_world
          (mkParams absent None "mylabel" None None) false)
     = Some [].
Proof.
  destruct (absent_clears_then_removes_label demo_create demo_world demo_engine
              (mkParams absent None "mylabel" None None) false
              eq_refl eq_refl eq_refl) as [_ Hfound].
  destruct (Hfound (demo_label ["id2"; "id4"] ["h1"; "h2"]) eq_refl)
    as (Hreport & _ & _ & Hreal).
  - intros name i Hi.
    destruct name; simpl in Hi;
      repeat (destruct Hi as [<- | Hi]; [discriminate |]); destruct Hi.
  - destruct (Hreal eq_refl) as (cs & _ & _ & _ & Hlabels).
    split; [exact Hreport | exact Hlabels].
Defined.

(** C4, the claim as written fails: with [state=absent] and a cluster
    given, the VM ["id4"] of another cluster is assigned to the label and
    gets no remove call before the label is removed. *)
Lemma absent_with_cluster_leaves_other_cluster :
  search_entity "mylabel" (eng_labels demo_engine)
  = Some (demo_label ["id2"; "id4"] ["h1"; "h2"])
  /\ run_events
       (main demo_create BaseModule_remove demo_world
          (mkParams absent (Some "mycluster") "mylabel" None None) false)
     = [ECreateConnection;
        ERemote (AssignmentRemove vms "L" "id2");
        ERemote (AssignmentRemove hosts "L" "h1");
        ERemote (LabelRemove "L");
        EClose]
  /\ ~ In (ERemote (AssignmentRemove vms "L" "id4"))
         (run_events
            (main demo_create BaseModule_remove demo_world
               (mkParams absent (Some "mycluster") "mylabel" None None) false)).
Proof.
  split; [reflexivity |]. split; [reflexivity |].
  vm_compute. intuition discriminate.
Qed.

(** When the connection was made, [main] closes it last, whatever [create]
    or [remove] did, and no exception leaves [main]. *)
Lemma main_closes_open_connection create remove w eng p check :
  required_if_ok p = true ->
  sdk_installed w = true ->
  create_connection w = inr eng ->
  exists calls,
    run_events (main create remove w p check)
    = ECreateConnection :: map ERemote calls ++ [EClose]
    /\ run_uncaught (main create remove w p check) = None.
Proof.
  intros Hreq Hsdk Hconn. unfold main, try_block.
  rewrite Hreq, Hsdk, Hconn. simpl. eexists. split; reflexivity.
Qed.

(** C8, at the failing input: when [create_connection] raises, the
    [finally] block finds [connection] unbound; no close is issued and
    [UnboundLocalError] leaves [main]. *)
Theorem connection_failure_is_not_closed create remove e check :
  let run :=
    main create remove (mkWorld true (inl e))
      (mkParams present (Some "mycluster") "mylabel" None None) check in
  run_events run = [ECreateConnection]
  /\ ~ In EClose (run_events run)
  /\ run_report run = FailJson e
  /\ run_uncaught run = Some (UnboundLocalError "connection").
Proof.
  simpl. repeat split; try reflexivity.
  unfold main. simpl. intros [H | []]. discriminate.
Qed.

(** C9.  With [state=present] and no cluster, [main] ends with the
    framework's rejection and an empty log of events: [create_connection]
    is not called and nothing is asked of the engine, whatever the world
    is. *)
Theorem present_without_cluster_rejected create remove w p check :
  p_state p = present ->
  p_cluster p = None ->
  main create remove w p check
  = mkRun [] (FailJson (OtherError msg_required_if)) None None.
Proof.
  intros Hs Hc. unfold main, required_if_ok. rewrite Hs, Hc. reflexivity.
Qed.

Lemma present_without_cluster_rejected_witness :
  main demo_create BaseModule_remove demo_world
    (mkParams present None "mylabel" (Some ["vm1"]) None) false
  = mkRun [] (FailJson (OtherError msg_required_if)) None None.
Proof.
  apply (present_without_cluster_rejected demo_create BaseModule_remove
           demo_world (mkParams present None "mylabel" (Some ["vm1"]) None) false);
    reflexivity.
Defined.

(** * Further properties of the pass *)

Lemma nonempty_In {A} (l : list A) : nonempty l = true <-> exists x, In x l.
Proof.
  destruct l as [| x l]; simpl; split.
  - discriminate.
  - intros [x []].
  - intros _. exists x. auto.
  - reflexivity.
Qed.

Lemma stale_In desired objs_names n ids :
  In (n, ids) (stale desired objs_names) <->
  In (n, ids) objs_names /\ ~ In n desired.
Proof.
  unfold stale. rewrite filter_In. simpl. rewrite negb_true_iff, list_mem_false.
  reflexivity.
Qed.

(** ** Which calls a pass issues *)

(** X1.  Outside check mode, a pass that returns issues its add calls
    before its remove calls and nothing else; each add call is for the kind
    and the label of the pass and names an object the search returned for a
    desired name that is not a current name; each remove call names an
    assigned id that the engine knows, inside the cluster filter, under a
    name that is not desired. *)
Theorem pass_calls_sound sys m name ty st desired objs_names :
  check_mode m = false ->
  param_list name (params m) = Some desired ->
  collect_objs_names (objs_service_of sys name) (p_cluster (params m))
    (label_objs name (st_label st)) [] = inr objs_names ->
  exists adds removes,
    st_calls (res_state (_update_label_assignments sys m name ty st))
    = st_calls st ++ adds ++ removes
    /\ (forall c,
          In c adds ->
          exists d o,
            c = AssignmentAdd name (label_id (st_label st)) ty (obj_id o)
            /\ In d desired
            /\ ~ In d (dd_keys objs_names)
            /\ In o (svc_list (objs_service_of sys name)
                       (search_query d (p_cluster (params m)))))
    /\ (forall c,
          In c removes ->
          exists n i,
            c = AssignmentRemove name (label_id (st_label st)) i
            /\ In i (label_objs name (st_label st))
            /\ in_scope (objs_service_of sys name) (p_cluster (params m)) n i
            /\ ~ In n desired).
Proof.
  intros Hc Hp Hn. rewrite (update_real _ _ _ _ _ _ _ Hc Hp Hn). simpl.
  eexists _, _. split; [reflexivity |]. split.
  - intros c Hin. apply in_map_iff in Hin. destruct Hin as [o [<- Ho]].
    apply to_add_In in Ho. destruct Ho as [d [Hd [Hk Ho]]].
    exists d, o. auto.
  - intros c Hin. apply in_map_iff in Hin. destruct Hin as [i [<- Hi]].
    apply to_remove_In in Hi. destruct Hi as [n [ids [Hin [Hnd Hi]]]].
    assert (Hhas : dd_has objs_names n i) by (exists ids; auto).
    apply (collect_has _ _ _ _ _ Hn) in Hhas.
    destruct Hhas as [[ids' [[] _]] | [Ho Hs]].
    exists n, i. auto.
Qed.

Lemma pass_calls_sound_witness :
  exists adds removes,
    st_calls
      (res_state
         (_update_label_assignments demo_sys
            (demo_module (Some "mycluster") (Some ["vm2"; "vm1"]) None false)
            vms Vm (start (demo_label ["id3"; "id4"] []))))
    = [] ++ adds ++ removes
    /\ (forall c, In c adds -> call_kind c = Some vms)
    /\ (forall c, In c removes -> call_kind c = Some vms).
Proof.
  destruct (pass_calls_sound demo_sys
              (demo_module (Some "mycluster") (Some ["vm2"; "vm1"]) None false)
              vms Vm (start (demo_label ["id3"; "id4"] [])) ["vm2"; "vm1"]
              [("vm3", ["id3"])] eq_refl eq_refl eq_refl)
    as (adds & removes & Hcalls & Hadds & Hremoves).
  exists adds, removes. split; [exact Hcalls |]. split.
  - intros c Hc. destruct (Hadds c Hc) as (d & o & -> & _). reflexivity.
  - intros c Hc. destruct (Hremoves c Hc) as (n & i & -> & _). reflexivity.
Defined.

(** ** When the flag is set *)

Lemma to_add_nonempty objs_service cluster objs_names desired :
  nonempty (to_add objs_service cluster objs_names desired) = true <->
  exists d,
    In d desired /\ ~ In d (dd_keys objs_names)
    /\ svc_list objs_service (search_query d cluster) <> [].
Proof.
  rewrite nonempty_In. split.
  - intros [o Ho]. apply to_add_In in Ho. destruct Ho as [d [Hd [Hk Ho]]].
    exists d. repeat split; auto. intros E. rewrite E in Ho. destruct Ho.
  - intros [d [Hd [Hk Hne]]].
    destruct (svc_list objs_service (search_query d cluster)) as [| o l] eqn:E;
      [contradiction |].
    exists o. apply to_add_In. exists d. rewrite E. simpl. auto.
Qed.

Lemma stale_nonempty desired objs_names :
  nonempty (stale desired objs_names) = true <->
  exists n, In n (dd_keys objs_names) /\ ~ In n desired.
Proof.
  rewrite nonempty_In. split.
  - intros [[n ids] H]. apply stale_In in H. destruct H as [Hin Hnd].
    exists n. split; [| exact Hnd]. unfold dd_keys. apply in_map_iff.
    exists (n, ids). auto.
  - intros [n [Hk Hnd]]. unfold dd_keys in Hk. apply in_map_iff in Hk.
    destruct Hk as [[n' ids] [Heq Hin]]. simpl in Heq. subst n'.
    exists (n, ids). apply stale_In. auto.
Qed.

(** X2.  In either mode, a pass that starts with [changed] unset ends with
    it set exactly when some desired name is not a current name and its
    search returns something, or some current name is not desired. *)
Theorem changed_iff_something_to_do sys m name ty st desired objs_names :
  param_list name (params m) = Some desired ->
  collect_objs_names (objs_service_of sys name) (p_cluster (params m))
    (label_objs name (st_label st)) [] = inr objs_names ->
  st_changed st = false ->
  (st_changed (res_state (_update_label_assignments sys m name ty st)) = true
   <->
   (exists d,
       In d desired /\ ~ In d (dd_keys objs_names)
       /\ svc_list (objs_service_of sys name)
            (search_query d (p_cluster (params m))) <> [])
   \/ (exists n, In n (dd_keys objs_names) /\ ~ In n desired)).
Proof.
  intros Hp Hn Hch.
  rewrite <- to_add_nonempty, <- stale_nonempty, <- orb_true_iff.
  destruct (check_mode m) eqn:Hc.
  - rewrite (update_dry _ _ _ _ _ _ _ Hc Hp Hn). simpl. now rewrite Hch.
  - rewrite (update_real _ _ _ _ _ _ _ Hc Hp Hn). simpl. now rewrite Hch.
Qed.

Lemma changed_iff_something_to_do_witness :
  st_changed
    (res_state
       (_update_label_assignments demo_sys
          (demo_module (Some "mycluster") (Some ["vm3"; "ghost"]) None true)
          vms Vm (start (demo_label ["id3"; "id4"] []))))
  = true
  <->
  (exists d,
      In d ["vm3"; "ghost"] /\ ~ In d (dd_keys [("vm3", ["id3"])])
      /\ svc_list (objs_service_of demo_sys vms)
           (search_query d (Some "mycluster")) <> [])
  \/ (exists n, In n (dd_keys [("vm3", ["id3"])]) /\ ~ In n ["vm3"; "ghost"]).
Proof.
  apply (changed_iff_something_to_do demo_sys
           (demo_module (Some "mycluster") (Some ["vm3"; "ghost"]) None true)
           vms Vm (start (demo_label ["id3"; "id4"] [])) ["vm3"; "ghost"]
           [("vm3", ["id3"])]);
    reflexivity.
Defined.

(** ** Which assignments a pass keeps *)

Lemma gone_iff objs_service cluster objs objs_names desired i :
  collect_objs_names objs_service cluster objs [] = inr objs_names ->
  (In i (to_remove desired objs_names) <->
   In i objs /\ exists n, in_scope objs_service cluster n i /\ ~ In n desired).
Proof.
  intros Hn. rewrite to_remove_In. split.
  - intros [n [ids [Hin [Hnd Hi]]]].
    assert (Hhas : dd_has objs_names n i) by (exists ids; auto).
    apply (collect_has _ _ _ _ _ Hn) in Hhas.
    destruct Hhas as [[ids' [[] _]] | [Ho Hs]]. split; [exact Ho |].
    exists n. auto.
  - intros [Ho [n [Hs Hnd]]].
    assert (Hhas : dd_has objs_names n i).
    { apply (collect_has _ _ _ _ _ Hn). auto. }
    destruct Hhas as [ids [Hin Hi]]. exists n, ids. auto.
Qed.

(** X3.  Outside check mode, after a pass that returns, an id that was
    assigned is still assigned exactly when the engine does not know it,
    inside the cluster filter, under a name that is not desired: ids under
    desired names and ids outside the filter are never detached. *)
Theorem pass_keeps_desired_assignments sys m name ty st st' desired i :
  check_mode m = false ->
  param_list name (params m) = Some desired ->
  _update_label_assignments sys m name ty st = Ok tt st' ->
  In i (label_objs name (st_label st)) ->
  (In i (label_objs name (st_label st')) <->
   ~ exists n,
       in_scope (objs_service_of sys name) (p_cluster (params m)) n i
       /\ ~ In n desired).
Proof.
  intros Hc Hp Hrun Hi.
  destruct (collect_objs_names (objs_service_of sys name) (p_cluster (params m))
              (label_objs name (st_label st)) []) as [e | names] eqn:Hn.
  - rewrite (update_raises _ _ _ _ _ _ _ Hp Hn) in Hrun. discriminate.
  - rewrite (update_real _ _ _ _ _ _ _ Hc Hp Hn) in Hrun. simpl in Hrun.
    inversion Hrun; subst st'; clear Hrun. simpl. rewrite label_objs_set.
    rewrite apply_removes_In, apply_adds_In, (gone_iff _ _ _ _ desired i Hn).
    intuition.
Qed.

Lemma pass_keeps_desired_assignments_witness :
  In "id2" ["id2"; "id4"; "id1"; "id5"]
  <-> ~ exists n,
          in_scope (vms_service demo_sys) (Some "mycluster") n "id2"
          /\ ~ In n ["vm1"; "vm2"].
Proof.
  apply (pass_keeps_desired_assignments demo_sys
           (demo_module (Some "mycluster") (Some ["vm1"; "vm2"]) None false)
           vms Vm (start (demo_label ["id2"; "id3"; "id4"] []))
           (mkSt (demo_label ["id2"; "id4"; "id1"; "id5"] []) true
              [AssignmentAdd vms "L" Vm "id1"; AssignmentAdd vms "L" Vm "id5";
               AssignmentRemove vms "L" "id3"])
           ["vm1"; "vm2"] "id2");
    try reflexivity.
  simpl. auto.
Defined.

(** ** The empty list *)

(** X4.  Outside check mode, a pass with the empty list that returns adds
    nothing and detaches every id the engine knows inside the cluster
    filter; without a cluster filter no assignment of the kind is left. *)
Theorem empty_list_detaches sys m name ty st st' :
  check_mode m = false ->
  param_list name (params m) = Some [] ->
  _update_label_assignments sys m name ty st = Ok tt st' ->
  (forall i,
      In i (label_objs name (st_label st')) <->
      In i (label_objs name (st_label st))
      /\ ~ exists n, in_scope (objs_service_of sys name) (p_cluster (params m)) n i)
  /\ (p_cluster (params m) = None -> label_objs name (st_label st') = []).
Proof.
  intros Hc Hp Hrun.
  destruct (collect_objs_names (objs_service_of sys name) (p_cluster (params m))
              (label_objs name (st_label st)) []) as [e | names] eqn:Hn.
  - rewrite (update_raises _ _ _ _ _ _ _ Hp Hn) in Hrun. discriminate.
  - rewrite (update_real _ _ _ _ _ _ _ Hc Hp Hn) in Hrun. simpl in Hrun.
    inversion Hrun; subst st'; clear Hrun. simpl. rewrite label_objs_set.
    assert (Hmem : forall i,
      In i (apply_removes (to_remove [] names)
              (apply_adds (map obj_id
                 (to_add (objs_service_of sys name) (p_cluster (params m)) names []))
                 (label_objs name (st_label st)))) <->
      In i (label_objs name (st_label st))
      /\ ~ exists n,
             in_scope (objs_service_of sys name) (p_cluster (params m)) n i).
    { intros i. rewrite apply_removes_In, apply_adds_In,
        (gone_iff _ _ _ _ [] i Hn). simpl. split.
      - intros [[Hi | []] Hkeep]. split; [exact Hi |].
        intros [n Hs]. apply Hkeep. split; [exact Hi |]. exists n. auto.
      - intros [Hi Hout]. split; [auto |].
        intros [_ [n [Hs _]]]. apply Hout. exists n. exact Hs. }
    split; [exact Hmem |]. intros Hcl.
    match goal with |- ?l = [] => destruct l as [| i rest] eqn:El end;
      [reflexivity | exfalso].
    assert (Hin : In i (i :: rest)) by (left; reflexivity).
    rewrite <- El in Hin. apply Hmem in Hin. destruct Hin as [Hi Hout].
    apply Hout.
    destruct (svc_get (objs_service_of sys name) i) as [o |] eqn:Hg.
    + exists (obj_name o), o. rewrite Hcl. auto.
    + exfalso. exact (collect_known _ _ _ _ _ Hn i Hi Hg).
Qed.

Lemma empty_list_detaches_witness :
  (forall i,
      In i ["id4"] <->
      In i ["id2"; "id3"; "id4"]
      /\ ~ exists n, in_scope (vms_service demo_sys) (Some "mycluster") n i)
  /\ (Some "mycluster" = None -> ["id4"] = []).
Proof.
  apply (empty_list_detaches demo_sys
           (demo_module (Some "mycluster") (Some []) None false)
           vms Vm (start (demo_label ["id2"; "id3"; "id4"] []))
           (mkSt (demo_label ["id4"] []) true
              [AssignmentRemove vms "L" "id2"; AssignmentRemove vms "L" "id3"]));
    reflexivity.
Defined.

(** ** [pre_remove] without a cluster *)

Lemma label_name_set name x l : label_name (set_label_objs name x l) = label_name l.
Proof. destruct name; reflexivity. Qed.

Lemma no_member_nil {A} (l : list A) : (forall x, ~ In x l) -> l = [].
Proof.
  destruct l as [| x l]; [reflexivity |]. intros H. exfalso.
  apply (H x). now left.
Qed.

Lemma clear_kind_all sys m name ty st :
  check_mode m = false ->
  param_list name (params m) = Some [] ->
  p_cluster (params m) = None ->
  (forall i, In i (label_objs name (st_label st)) ->
             svc_get (objs_service_of sys name) i <> None) ->
  exists st',
    _update_label_assignments sys m name ty st = Ok tt st'
    /\ st_label st' = set_label_objs name [] (st_label st).
Proof.
  intros Hc Hp Hcl Hk.
  destruct (clear_kind sys m name ty st Hp Hk) as (names & Hn & Hrun).
  rewrite Hc in Hrun. eexists. split; [exact Hrun |]. simpl. f_equal.
  apply no_member_nil. intros i Hi. apply apply_removes_In in Hi.
  destruct Hi as [Hi Hkeep]. apply Hkeep.
  apply (listed_ids _ _ _ _ i Hn). split; [exact Hi |].
  destruct (svc_get (objs_service_of sys name) i) as [o |] eqn:Hg.
  - exists (obj_name o), o. rewrite Hcl. auto.
  - exfalso. exact (Hk i Hi Hg).
Qed.

(** X5.  Outside check mode and without a cluster, [pre_remove] on a label
    whose assigned ids the engine knows returns and leaves the label with no
    VM and no host assigned, whatever lists the module was given; the
    label's id and name are kept. *)
Theorem pre_remove_detaches_all sys m st :
  check_mode m = false ->
  p_cluster (params m) = None ->
  (forall name i, In i (label_objs name (st_label st)) ->
                  svc_get (objs_service_of sys name) i <> None) ->
  exists st',
    snd (pre_remove sys m st) = Ok true st'
    /\ st_label st'
       = mkLabel (label_id (st_label st)) (label_name (st_label st)) [] [].
Proof.
  intros Hc Hcl Hk. unfold pre_remove. cbv zeta. cbn [snd].
  set (m' := mkModule _ (check_mode m)).
  destruct (clear_kind_all sys m' vms Vm st Hc eq_refl Hcl (Hk vms))
    as (st1 & Hrun1 & Hl1).
  assert (Hk1 : forall i, In i (label_objs hosts (st_label st1)) ->
                          svc_get (objs_service_of sys hosts) i <> None).
  { rewrite Hl1. simpl. apply (Hk hosts). }
  destruct (clear_kind_all sys m' hosts Host st1 Hc eq_refl Hcl Hk1)
    as (st2 & Hrun2 & Hl2).
  exists st2. unfold update_check. rewrite Hrun1. simpl. rewrite Hrun2. simpl.
  split; [reflexivity |]. rewrite Hl2, Hl1. reflexivity.
Qed.

Lemma pre_remove_detaches_all_witness :
  exists st',
    snd (pre_remove demo_sys
           (mkModule (mkParams absent None "mylabel" (Some ["vm2"]) None) false)
           (start (demo_label ["id2"; "id4"] ["h1"; "h2"])))
    = Ok true st'
    /\ st_label st' = mkLabel "L" "mylabel" [] [].
Proof.
  apply (pre_remove_detaches_all demo_sys
           (mkModule (mkParams absent None "mylabel" (Some ["vm2"]) None) false)
           (start (demo_label ["id2"; "id4"] ["h1"; "h2"])) eq_refl eq_refl).
  intros name i Hi.
  destruct name; simpl in Hi;
    repeat (destruct Hi as [<- | Hi]; [discriminate |]); destruct Hi.
Defined.

(** ** An assigned id the engine does not know *)

Lemma collect_raises objs_service cluster known i rest :
  (forall j, In j known -> svc_get objs_service j <> None) ->
  svc_get objs_service i = None ->
  forall acc,
    collect_objs_names objs_service cluster (known ++ i :: rest) acc
    = inl (NotFoundError i).
Proof.
  intros Hk Hi. induction known as [| j known IH]; intros acc.
  - rewrite app_nil_l, collect_step, Hi. reflexivity.
  - rewrite <- app_comm_cons, collect_step.
    destruct (svc_get objs_service j) as [o |] eqn:Hj.
    + apply IH. intros j' Hj'. apply Hk. now right.
    + exfalso. apply (Hk j); [now left | exact Hj].
Qed.

(** X6.  When a list is given for [name] and some assigned id is unknown to
    the engine, the pass raises the not-found error of the first such id
    and has issued no call before: the label, the flag and the log are as
    they were, in either mode and also when the id would have been outside
    the cluster filter. *)
Theorem unknown_id_raises_before_any_call sys m name ty st desired known i rest :
  param_list name (params m) = Some desired ->
  label_objs name (st_label st) = known ++ i :: rest ->
  (forall j, In j known -> svc_get (objs_service_of sys name) j <> None) ->
  svc_get (objs_service_of sys name) i = None ->
  _update_label_assignments sys m name ty st = Raise (NotFoundError i) st.
Proof.
  intros Hp Hobjs Hk Hi. apply (update_raises _ _ _ _ _ desired _ Hp).
  rewrite Hobjs. now apply collect_raises.
Qed.

Lemma unknown_id_raises_before_any_call_witness :
  _update_label_assignments demo_sys
    (demo_module (Some "mycluster") (Some ["vm1"]) None false) vms Vm
    (start (demo_label ["id3"; "id9"; "id2"; "id8"] []))
  = Raise (NotFoundError "id9") (start (demo_label ["id3"; "id9"; "id2"; "id8"] [])).
Proof.
  apply (unknown_id_raises_before_any_call demo_sys
           (demo_module (Some "mycluster") (Some ["vm1"]) None false) vms Vm
           (start (demo_label ["id3"; "id9"; "id2"; "id8"] []))
           ["vm1"] ["id3"] "id9" ["id2"; "id8"]);
    try reflexivity.
  intros j [<- | []]. discriminate.
Defined.

(** ** Current names that already are the desired names *)

(** X7.  When the current names are exactly the desired names (as sets),
    the pass returns the state it was given, in either mode: it issues no
    call, leaves the flag alone, and does not depend on what the engine
    would answer to a search. *)
Theorem matching_names_noop sys m name ty st desired objs_names :
  param_list name (params m) = Some desired ->
  collect_objs_names (objs_service_of sys name) (p_cluster (params m))
    (label_objs name (st_label st)) [] = inr objs_names ->
  (forall n, In n (dd_keys objs_names) <-> In n desired) ->
  _update_label_assignments sys m name ty st = Ok tt st.
Proof.
  intros Hp Hn Hsame. apply settled_noop. unfold settled. rewrite Hp.
  exists objs_names. split; [exact Hn |]. split.
  - apply stale_nil. intros n. apply Hsame.
  - apply to_add_nil. intros d Hd. left. now apply Hsame.
Qed.

Lemma matching_names_noop_witness :
  _update_label_assignments demo_sys
    (demo_module (Some "mycluster") (Some ["vm3"; "vm1"; "vm3"]) None false)
    vms Vm (start (demo_label ["id1"; "id4"; "id3"; "id5"] []))
  = Ok tt (start (demo_label ["id1"; "id4"; "id3"; "id5"] [])).
Proof.
  apply (matching_names_noop demo_sys
           (demo_module (Some "mycluster") (Some ["vm3"; "vm1"; "vm3"]) None false)
           vms Vm (start (demo_label ["id1"; "id4"; "id3"; "id5"] []))
           ["vm3"; "vm1"; "vm3"] [("vm1", ["id1"; "id5"]); ("vm3", ["id3"])]);
    try reflexivity.
  intros n. simpl. intuition.
Defined.

(** ** What a pass leaves alone *)

Lemma pass_raise_state sys m name ty st e s :
  _update_label_assignments sys m name ty st = Raise e s -> s = st.
Proof.
  unfold _update_label_assignments.
  destruct (param_list name (params m)); [| discriminate].
  destruct (collect_objs_names _ _ _ _); [| discriminate].
  intros H. now inversion H.
Qed.

Lemma pass_effect sys m name ty st :
  exists ids b new,
    res_state (_update_label_assignments sys m name ty st)
    = mkSt (set_label_objs name ids (st_label st)) (st_changed st || b)
           (st_calls st ++ new)
    /\ forall c, In c new -> call_kind c = Some name.
Proof.
  destruct (param_list name (params m)) as [desired |] eqn:Hp.
  - destruct (collect_objs_names (objs_service_of sys name) (p_cluster (params m))
                (label_objs name (st_label st)) []) as [e | names] eqn:Hn.
    + rewrite (update_raises _ _ _ _ _ _ _ Hp Hn). simpl.
      exists (label_objs name (st_label st)), false, [].
      rewrite set_label_objs_same, orb_false_r, app_nil_r.
      split; [now destruct st | intros c []].
    + destruct (check_mode m) eqn:Hc.
      * rewrite (update_dry _ _ _ _ _ _ _ Hc Hp Hn). simpl.
        eexists (label_objs name (st_label st)), _, [].
        rewrite set_label_objs_same, app_nil_r, <- orb_assoc.
        split; [reflexivity | intros c []].
      * rewrite (update_real _ _ _ _ _ _ _ Hc Hp Hn). simpl.
        eexists _, _, _. rewrite <- orb_assoc. split; [reflexivity |].
        intros c Hin. apply in_app_or in Hin.
        destruct Hin as [Hin | Hin]; apply in_map_iff in Hin;
          destruct Hin as [x [<- _]]; reflexivity.
  - rewrite sync_unset_noop by assumption. simpl.
    exists (label_objs name (st_label st)), false, [].
    rewrite set_label_objs_same, orb_false_r, app_nil_r.
    split; [now destruct st | intros c []].
Qed.

(** X8.  Whatever the mode and the outcome, a pass for one kind leaves the
    label's id, its name and the assignments of the other kind as they
    were. *)
Theorem pass_leaves_other_kind sys m name ty st :
  let l' := st_label (res_state (_update_label_assignments sys m name ty st)) in
  label_id l' = label_id (st_label st)
  /\ label_name l' = label_name (st_label st)
  /\ label_objs (other_kind name) l' = label_objs (other_kind name) (st_label st).
Proof.
  destruct (pass_effect sys m name ty st) as (ids & b & new & Hst & _).
  cbv zeta. rewrite Hst. simpl.
  rewrite label_id_set, label_name_set. repeat split.
  apply label_objs_set_other. destruct name; discriminate.
Qed.

(** ** [update_check] as a whole *)

(** X9.  Whatever the mode and the outcome, [update_check] never clears a
    set [changed] flag, and it only appends to the log of calls: first
    calls about VMs, then calls about hosts. *)
Theorem update_check_flag_and_log sys m st :
  let st' := res_state (update_check sys m st) in
  (st_changed st = true -> st_changed st' = true)
  /\ exists vm_calls host_calls,
       st_calls st' = st_calls st ++ vm_calls ++ host_calls
       /\ (forall c, In c vm_calls -> call_kind c = Some vms)
       /\ (forall c, In c host_calls -> call_kind c = Some hosts).
Proof.
  cbv zeta. unfold update_check.
  destruct (pass_effect sys m vms Vm st) as (ids1 & b1 & cv & Hst1 & Hcv).
  destruct (_update_label_assignments sys m vms Vm st) as [[] s1 | e s1];
    simpl in *; subst s1; simpl.
  - destruct (pass_effect sys m hosts Host
                (mkSt (set_label_objs vms ids1 (st_label st)) (st_changed st || b1)
                   (st_calls st ++ cv))) as (ids2 & b2 & ch & Hst2 & Hch).
    destruct (_update_label_assignments sys m hosts Host _) as [[] s2 | e s2];
      simpl in *; subst s2; simpl.
    + split; [intros ->; reflexivity |].
      exists cv, ch. rewrite <- app_assoc. auto.
    + split; [intros ->; reflexivity |].
      exists cv, ch. rewrite <- app_assoc. auto.
  - split; [intros ->; reflexivity |].
    exists cv, []. rewrite app_nil_r. split; [reflexivity |].
    split; [exact Hcv | intros c []].
Qed.

(** X10.  [update_check] does not undo: when the pass over the VMs
    returns and the pass over the hosts raises, [update_check] raises the
    same exception and the state is the one the VM pass left, with its
    calls issued and its flag. *)
Theorem update_check_keeps_vm_pass sys m st st1 e :
  _update_label_assignments sys m vms Vm st = Ok tt st1 ->
  res_raised (_update_label_assignments sys m hosts Host st1) = Some e ->
  update_check sys m st = Raise e st1.
Proof.
  intros Hv Hh. unfold update_check. rewrite Hv. simpl.
  destruct (_update_label_assignments sys m hosts Host st1) as [a s2 | e' s2] eqn:E;
    simpl in Hh; [discriminate |].
  inversion Hh; subst e'. apply pass_raise_state in E. subst s2. reflexivity.
Qed.

Lemma update_check_keeps_vm_pass_witness :
  update_check demo_sys
    (demo_module (Some "mycluster") (Some ["vm2"]) (Some ["host1"]) false)
    (start (demo_label ["id3"] ["h9"]))
  = Raise (NotFoundError "h9")
      (mkSt (demo_label ["id2"] ["h9"]) true
         [AssignmentAdd vms "L" Vm "id2"; AssignmentRemove vms "L" "id3"]).
Proof.
  apply (update_check_keeps_vm_pass demo_sys
           (demo_module (Some "mycluster") (Some ["vm2"]) (Some ["host1"]) false)
           (start (demo_label ["id3"] ["h9"]))
           (mkSt (demo_label ["id2"] ["h9"]) true
              [AssignmentAdd vms "L" Vm "id2"; AssignmentRemove vms "L" "id3"])
           (NotFoundError "h9"));
    reflexivity.
Defined.

(** ** The dictionary [objs_names] *)

(** X11.  The dictionary the first loop builds has one entry per name, no
    entry with an empty list, and lists an id under a name exactly when the
    id is assigned and the engine knows it under that name inside the
    cluster filter (every known id, when no cluster is given). *)
Theorem objs_names_invariant objs_service cluster objs objs_names :
  collect_objs_names objs_service cluster objs [] = inr objs_names ->
  NoDup (dd_keys objs_names)
  /\ (forall n ids, In (n, ids) objs_names -> ids <> [])
  /\ (forall n i,
        dd_has objs_names n i <->
        In i objs /\ in_scope objs_service cluster n i).
Proof.
  intros Hn. split; [| split].
  - apply (collect_NoDup objs_service cluster objs [] objs_names); [constructor | exact Hn].
  - apply (collect_inhabited objs_service cluster objs [] objs_names); [| exact Hn].
    intros n ids [].
  - intros n i. rewrite (collect_has _ _ _ _ _ Hn n i). split.
    + intros [[ids [[] _]] | H]. exact H.
    + auto.
Qed.

Lemma objs_names_invariant_witness :
  NoDup (dd_keys [("vm1", ["id1"; "id5"]); ("vm3", ["id3"])])
  /\ (forall n ids,
        In (n, ids) [("vm1", ["id1"; "id5"]); ("vm3", ["id3"])] -> ids <> [])
  /\ (forall n i,
        dd_has [("vm1", ["id1"; "id5"]); ("vm3", ["id3"])] n i <->
        In i ["id1"; "id4"; "id3"; "id5"]
        /\ in_scope (vms_service demo_sys) (Some "mycluster") n i).
Proof.
  apply (objs_names_invariant (vms_service demo_sys) (Some "mycluster")
           ["id1"; "id4"; "id3"; "id5"]).
  reflexivity.
Defined.

(** ** [main] once the connection is made *)

(** X12.  When the pre-checks pass and [create_connection] returns, [main]
    runs [create] for [state=present] and [remove] for [state=absent], and
    only that one; the connection is closed once, after every remote call,
    whether the method returned or raised; a returned value is handed to
    [exit_json], a raised exception to [fail_json], and no exception leaves
    [main]. *)
Theorem main_runs_one_method_and_closes create remove w eng p check :
  required_if_ok p = true ->
  sdk_installed w = true ->
  create_connection w = inr eng ->
  let b :=
    match p_state p with
    | present => create (mkModule p check) eng
    | absent => remove (mkModule p check) eng
    end in
  let run := main create remove w p check in
  run_events run = ECreateConnection :: map ERemote (body_calls b) ++ [EClose]
  /\ run_uncaught run = None
  /\ run_labels run = Some (body_labels b)
  /\ (forall ret, body_ret b = inr ret -> run_report run = ExitJson ret)
  /\ (forall e, body_ret b = inl e -> run_report run = FailJson e).
Proof.
  intros Hreq Hsdk Hconn. cbv zeta. unfold main, try_block.
  rewrite Hreq, Hsdk, Hconn. simpl.
  repeat split; try reflexivity; intros x Hx; now rewrite Hx.
Qed.

Lemma main_runs_one_method_and_closes_witness :
  run_events
    (main demo_create BaseModule_remove demo_world
       (mkParams present (Some "mycluster") "mylabel" None None) false)
  = [ECreateConnection; EClose]
  /\ run_report
       (main demo_create BaseModule_remove demo_world
          (mkParams present (Some "mycluster") "mylabel" None None) false)
     = FailJson (OtherError "create").
Proof.
  destruct (main_runs_one_method_and_closes demo_create BaseModule_remove
              demo_world demo_engine
              (mkParams present (Some "mycluster") "mylabel" None None) false
              eq_refl eq_refl eq_refl)
    as (Hev & _ & _ & _ & Hfail).
  split; [exact Hev | exact (Hfail (OtherError "create") eq_refl)].
Defined.

(** ** The search query *)

Lemma string_app_assoc (a b c : string) :
  ((a ++ b) ++ c)%string = (a ++ (b ++ c))%string.
Proof.
  induction a as [| x a IH]; simpl; [reflexivity | now rewrite IH].
Qed.

(** X13.  The names are put into the query as they are: a name that
    contains the text [" and cluster="] gives the query of a shorter name
    in another cluster, and an unset cluster gives the query of the cluster
    named ["None"]. *)
Theorem search_query_not_escaped a b c :
  search_query (a ++ " and cluster=" ++ b)%string (Some c)
  = search_query a (Some (b ++ " and cluster=" ++ c)%string)
  /\ search_query a None = search_query a (Some "None").
Proof.
  split; [| reflexivity]. unfold search_query, py_str.
  rewrite !string_app_assoc. reflexivity.
Qed.
